(** * LogiDoc: the route-conditional body class and the homepage SDK grid

    A shallow embedding of the executable parts of the documentation site:

    - [src/components/ConditionalNavScript.tsx]: a React effect that adds the
      class ['actions-sdk-page'] to [document.body] while the router's
      pathname contains ['/docs/actions-sdk/'], and removes it otherwise and
      on unmount;
    - [src/pages/index.tsx] (two revisions of it): [SDKGrid], which maps a
      list of SDK descriptors to cards;
    - [sidebars.ts]: the declarative sidebar tree.

    JavaScript strings are modelled as [string], the DOM token list of
    [document.body.classList] as a [list string], JSX as a first-order tree
    of React nodes, and [useEffect] by the commit phases of a one-hook
    component instance (mount, update with dependency comparison, unmount). *)

From Stdlib Require Import String Ascii List Bool Arith Lia.
Import ListNotations.
Set Warnings "-register-all".
Local Open Scope string_scope.
Local Open Scope list_scope.

(* ================================================================= *)
(** ** JavaScript strings *)

Module JSString.

(** [s.startsWith(sub)] *)
Fixpoint startsWith (s sub : string) {struct sub} : bool :=
  match sub, s with
  | EmptyString, _ => true
  | String c sub', String d s' => Ascii.eqb c d && startsWith s' sub'
  | String _ _, EmptyString => false
  end.

(** [s.includes(sub)]: [sub] occurs in [s] at some position. *)
Fixpoint includes (s sub : string) : bool :=
  startsWith s sub ||
  match s with
  | EmptyString => false
  | String _ s' => includes s' sub
  end.

(** A value of type [string] is falsy exactly when it is empty. *)
Definition truthy (s : string) : bool :=
  match s with
  | EmptyString => false
  | String _ _ => true
  end.

End JSString.

(* ================================================================= *)
(** ** Completions: a DOM call either returns or throws *)

Inductive DOMException : Type :=
| SyntaxError
| InvalidCharacterError.

Inductive result (A : Type) : Type :=
| Ok (a : A)
| Throw (e : DOMException).

Arguments Ok {A} a.
Arguments Throw {A} e.

Definition bind {A B : Type} (m : result A) (k : A -> result B) : result B :=
  match m with
  | Ok a => k a
  | Throw e => Throw e
  end.

Notation "x <- m ;; k" := (bind m (fun x => k))
  (at level 61, m at next level, right associativity).

(* ================================================================= *)
(** ** The DOM: token lists, elements, the document *)

Module DOM.

(** The ordered token set behind [element.classList]. *)
Definition DOMTokenList := list string.

Definition is_ascii_whitespace (c : ascii) : bool :=
  let n := nat_of_ascii c in
  Nat.eqb n 9 || Nat.eqb n 10 || Nat.eqb n 12 || Nat.eqb n 13 || Nat.eqb n 32.

Definition has_whitespace (t : string) : bool :=
  existsb is_ascii_whitespace (list_ascii_of_string t).

(** The validation [add] and [remove] run on each token argument. *)
Definition validate (t : string) : result unit :=
  if String.eqb t "" then Throw SyntaxError
  else if has_whitespace t then Throw InvalidCharacterError
  else Ok tt.

Definition contains (t : string) (l : DOMTokenList) : bool :=
  existsb (String.eqb t) l.

(** [classList.add(t)]: append [t] unless the set already holds it. *)
Definition add (t : string) (l : DOMTokenList) : result DOMTokenList :=
  _ <- validate t ;;
  Ok (if contains t l then l else l ++ [t]).

(** [classList.remove(t)]: drop [t] from the set. *)
Definition remove (t : string) (l : DOMTokenList) : result DOMTokenList :=
  _ <- validate t ;;
  Ok (filter (fun x => negb (String.eqb t x)) l).

(** An element, as far as the component can tell: [classList] is the token
    set of the [class] attribute, [attributes] the other attributes.  The
    text of the [class] attribute, and whether the element carries one at
    all, are not part of this view: statements speak of the tokens only. *)
Record HTMLElement : Type := {
  tagName : string;
  classList : DOMTokenList;
  attributes : list (string * string)   (* every attribute but [class] *)
}.

Definition with_classList (l : DOMTokenList) (e : HTMLElement) : HTMLElement :=
  {| tagName := tagName e; classList := l; attributes := attributes e |}.

Section Document.

(** Everything observable besides [document.body]: the other elements,
    the window, the router's own state. *)
Variable Rest : Type.

Record Document : Type := {
  body : HTMLElement;
  rest : Rest
}.

Definition with_body (b : HTMLElement) (d : Document) : Document :=
  {| body := b; rest := rest d |}.

(** [document.body.classList.add(t)] *)
Definition body_classList_add (t : string) (d : Document) : result Document :=
  l <- add t (classList (body d)) ;;
  Ok (with_body (with_classList l (body d)) d).

(** [document.body.classList.remove(t)] *)
Definition body_classList_remove (t : string) (d : Document) : result Document :=
  l <- remove t (classList (body d)) ;;
  Ok (with_body (with_classList l (body d)) d).

(** The class is on the body. *)
Definition body_has_class (t : string) (d : Document) : Prop :=
  In t (classList (body d)).

End Document.

Arguments body {Rest} d.
Arguments rest {Rest} d.
Arguments with_body {Rest} b d.
Arguments body_classList_add {Rest} t d.
Arguments body_classList_remove {Rest} t d.
Arguments body_has_class {Rest} t d.

End DOM.

(* ================================================================= *)
(** ** React nodes: what JSX evaluates to *)

Module React.

Inductive PropValue : Type :=
| PString (s : string)
| PTrue                                   (* a bare attribute: [autoPlay] *)
| PStyle (css : list (string * string)).

(** A child position holds an element, a string, or a value React renders
    as nothing ([null], [undefined], [false]). *)
Inductive ReactNode : Type :=
| RNull
| RUndefined
| RText (s : string)
| RElement (type : string) (key : option nat)
           (props : list (string * PropValue)) (children : list ReactNode).

Fixpoint lookup_prop (name : string) (props : list (string * PropValue))
  : option PropValue :=
  match props with
  | [] => None
  | (k, v) :: ps => if String.eqb name k then Some v else lookup_prop name ps
  end.

Definition element_type (n : ReactNode) : option string :=
  match n with
  | RElement t _ _ _ => Some t
  | _ => None
  end.

Definition element_key (n : ReactNode) : option nat :=
  match n with
  | RElement _ k _ _ => k
  | _ => None
  end.

Definition element_prop (name : string) (n : ReactNode) : option PropValue :=
  match n with
  | RElement _ _ ps _ => lookup_prop name ps
  | _ => None
  end.

Definition element_children (n : ReactNode) : list ReactNode :=
  match n with
  | RElement _ _ _ cs => cs
  | _ => []
  end.

Definition has_className (c : string) (n : ReactNode) : bool :=
  match element_prop "className" n with
  | Some (PString s) => String.eqb s c
  | _ => false
  end.

(** [cond && node] for a [cond] of type [string | undefined]: the result is
    [cond] itself when it is falsy, and [node] otherwise; [node] may use the
    string [cond] then is. *)
Definition and_then (cond : option string) (node : string -> ReactNode)
  : ReactNode :=
  match cond with
  | None => RUndefined
  | Some s => if JSString.truthy s then node s else RText s
  end.

(** [array.map((x, idx) => f x idx)] *)
Fixpoint map_from {A B : Type} (f : A -> nat -> B) (idx : nat) (l : list A)
  : list B :=
  match l with
  | [] => []
  | x :: l' => f x idx :: map_from f (S idx) l'
  end.

Definition array_map {A B : Type} (f : A -> nat -> B) (l : list A) : list B :=
  map_from f 0 l.

End React.

(* ================================================================= *)
(** ** [useEffect]: effects, hooks and the commit phases *)

Module Hooks.
Import DOM.

Section Runtime.
Variable Rest : Type.

(** The cleanup function an effect returns. *)
Definition Destroy : Type := Document Rest -> result (Document Rest).

(** [useEffect(create, deps)]: [create] runs the effect body against
    the document and hands back the cleanup closure. *)
Record Effect : Type := {
  create : Document Rest -> result (Document Rest * Destroy);
  deps : list string
}.

(** What the instance remembers of its effect between renders. *)
Record Hook : Type := {
  memoizedDeps : list string;
  destroy : Destroy
}.

(** Dependency arrays are compared element by element, as far as both
    reach. *)
Fixpoint areHookInputsEqual (nextDeps prevDeps : list string) : bool :=
  match nextDeps, prevDeps with
  | x :: xs, y :: ys => String.eqb x y && areHookInputsEqual xs ys
  | _, _ => true
  end.

(** First commit: the effect always runs. *)
Definition commitMount (eff : Effect) (document : Document Rest)
  : result (Document Rest * Hook) :=
  r <- create eff document ;;
  Ok (fst r, {| memoizedDeps := deps eff; destroy := snd r |}).

(** Later commits: with unchanged dependencies nothing runs; otherwise
    the previous cleanup runs first, then the new effect. *)
Definition commitUpdate (eff : Effect) (document : Document Rest) (hook : Hook)
  : result (Document Rest * Hook) :=
  if areHookInputsEqual (deps eff) (memoizedDeps hook)
  then Ok (document, hook)
  else
    document1 <- destroy hook document ;;
    r <- create eff document1 ;;
    Ok (fst r, {| memoizedDeps := deps eff; destroy := snd r |}).

(** Unmount: the pending cleanup runs. *)
Definition commitUnmount (document : Document Rest) (hook : Hook)
  : result (Document Rest) :=
  destroy hook document.

End Runtime.

Arguments create {Rest} e.
Arguments deps {Rest} e.
Arguments memoizedDeps {Rest} h.
Arguments destroy {Rest} h.
Arguments commitMount {Rest} eff document.
Arguments commitUpdate {Rest} eff document hook.
Arguments commitUnmount {Rest} document hook.

End Hooks.

(* ================================================================= *)
(** ** [src/components/ConditionalNavScript.tsx] *)

Module ConditionalNav.
Import DOM Hooks React.

(** The router's location object. *)
Record Location : Type := {
  pathname : string;
  search : string;
  hash : string
}.

Definition actions_sdk_prefix : string := "/docs/actions-sdk/".
Definition marker : string := "actions-sdk-page".

Section Component.
Variable Rest : Type.

(** The function returned by the effect: remove the class. *)
Definition cleanup : Destroy Rest :=
  fun document => body_classList_remove marker document.

(** The body of the effect callback, up to its [return]. *)
Definition effect_body (location : Location) (document : Document Rest)
  : result (Document Rest) :=
  let isActionsSDKPage :=
    JSString.includes (pathname location) actions_sdk_prefix in
  if isActionsSDKPage
  then body_classList_add marker document
  else body_classList_remove marker document.

(** The component: one effect keyed on [location.pathname], and [null]
    as its rendered output. *)
Definition ConditionalNavScript (location : Location)
  : ReactNode * Effect Rest :=
  (RNull,
   {| create := fun document =>
                  document' <- effect_body location document ;;
                  Ok (document', cleanup);
      deps := [pathname location] |}).

(** *** The mounted instance *)

(** The document, and the hook once the component is mounted. *)
Definition Instance : Type := (Document Rest * option (Hook Rest))%type.

(** One render and commit of the component at [location]. *)
Definition render (location : Location) (st : Instance) : result Instance :=
  let eff := snd (ConditionalNavScript location) in
  match snd st with
  | None =>
      r <- commitMount eff (fst st) ;;
      Ok (fst r, Some (snd r))
  | Some hook =>
      r <- commitUpdate eff (fst st) hook ;;
      Ok (fst r, Some (snd r))
  end.

(** The component leaves the tree. *)
Definition unmount (st : Instance) : result Instance :=
  match snd st with
  | None => Ok st
  | Some hook =>
      document <- commitUnmount (fst st) hook ;;
      Ok (document, None)
  end.

(** The router delivers locations one after the other. *)
Fixpoint navigate (locations : list Location) (st : Instance)
  : result Instance :=
  match locations with
  | [] => Ok st
  | location :: rest => st' <- render location st ;; navigate rest st'
  end.

(** A page load: the component is not mounted yet. *)
Definition fresh (document : Document Rest) : Instance := (document, None).

End Component.

Arguments cleanup {Rest} _.
Arguments effect_body {Rest} location document.
Arguments render {Rest} location st.
Arguments unmount {Rest} st.
Arguments navigate {Rest} locations st.
Arguments fresh {Rest} document.

Definition at_path (p : string) : Location :=
  {| pathname := p; search := ""; hash := "" |}.

(** A page as the browser may hand it to the component. *)
Definition sample_document : Document unit :=
  {| body := {| tagName := "BODY";
                classList := ["navigation-with-keyboard"];
                attributes := [("data-theme", "light")] |};
     rest := tt |}.

End ConditionalNav.

(* ================================================================= *)
(** ** [src/pages/index.tsx]: the SDK grid *)

Module SDKCards.
Import React.

(** One entry of the [sdks] array.  [image], [video] and [placeholder] are
    optional; each revision of the page reads two of the three. *)
Record SDK : Type := {
  title : string;
  description : string;
  link : string;
  className : string;
  image : option string;
  video : option string;
  placeholder : option string
}.

(** An optional field is set when the test [sdk.field && ...] passes: the
    field is there and its string is not empty. *)
Definition field_set (f : option string) : bool :=
  match f with
  | Some s => JSString.truthy s
  | None => false
  end.

(** [clsx(a, b, ...)] on string arguments: the truthy ones, joined by a
    space. *)
Definition clsx (args : list string) : string :=
  String.concat " " (filter JSString.truthy args).

Definition media_style : list (string * string) :=
  [("width", "100%"); ("height", "200px"); ("objectFit", "cover");
   ("borderRadius", "8px 8px 0 0")].

Definition placeholder_style : list (string * string) :=
  [("height", "200px"); ("backgroundColor", "#f5f5f5"); ("display", "flex");
   ("alignItems", "center"); ("justifyContent", "center");
   ("border", "2px dashed #ccc"); ("borderRadius", "8px 8px 0 0");
   ("fontSize", "14px"); ("color", "#666"); ("textAlign", "center");
   ("padding", "1rem")].

(** [{sdk.image && (<div className="card__image"><img .../></div>)}] *)
Definition image_block (sdk : SDK) : ReactNode :=
  and_then (image sdk) (fun src =>
    RElement "div" None [("className", PString "card__image")]
      [RElement "img" None
         [("src", PString src); ("alt", PString (title sdk));
          ("style", PStyle media_style)] []]).

(** [{sdk.video && (<div className="card__image"><video .../></div>)}] *)
Definition video_block (sdk : SDK) : ReactNode :=
  and_then (video sdk) (fun src =>
    RElement "div" None [("className", PString "card__image")]
      [RElement "video" None
         [("src", PString src); ("autoPlay", PTrue); ("loop", PTrue);
          ("muted", PTrue); ("playsInline", PTrue);
          ("style", PStyle media_style)] []]).

(** [{sdk.placeholder && (<div className="card__placeholder">...</div>)}] *)
Definition placeholder_block (sdk : SDK) : ReactNode :=
  and_then (placeholder sdk) (fun text =>
    RElement "div" None
      [("className", PString "card__placeholder");
       ("style", PStyle placeholder_style)]
      [RText text]).

Definition card_header (sdk : SDK) : ReactNode :=
  RElement "div" None [("className", PString "card__header")]
    [RElement "Heading" None [("as", PString "h3")] [RText (title sdk)]].

Definition card_body (sdk : SDK) : ReactNode :=
  RElement "div" None [("className", PString "card__body")]
    [RElement "p" None [] [RText (description sdk)]].

Definition card_footer (sdk : SDK) : ReactNode :=
  RElement "div" None [("className", PString "card__footer")]
    [RElement "Link" None
       [("className", PString "button button--primary button--block");
        ("to", PString (link sdk))]
       [RText "Learn More"]].

(** The column and card around five child positions: two conditional
    blocks, then header, body and footer. *)
Definition column (sdk : SDK) (idx : nat) (first second : ReactNode)
  : ReactNode :=
  RElement "div" (Some idx)
    [("className", PString "col col--4 margin-bottom--lg")]
    [RElement "div" None
       [("className", PString (clsx ["card"; className sdk]))]
       [first; second; card_header sdk; card_body sdk; card_footer sdk]].

(** The section around the row of cards. *)
Definition grid_section (cards : list ReactNode) : ReactNode :=
  RElement "section" None [("className", PString "sdk-intro")]
    [RElement "div" None [("className", PString "container")]
       [RElement "div" None [("className", PString "row")]
          [RElement "div" None [("className", PString "col col--12")]
             [RElement "Heading" None
                [("as", PString "h2");
                 ("className", PString "text--center margin-bottom--lg")]
                [RText "Choose Your SDK"]]];
        RElement "div" None [("className", PString "row")] cards]].

(** *** Reading a rendered card back *)

(** The children of the inner [card] element of a column. *)
Definition card_children (col : ReactNode) : list ReactNode :=
  match element_children col with
  | inner :: _ => element_children inner
  | [] => []
  end.

Definition has_child_of_type (t : string) (n : ReactNode) : bool :=
  existsb (fun c => match element_type c with
                    | Some t' => String.eqb t' t
                    | None => false
                    end) (element_children n).

(** A media block: a [card__image] element. *)
Definition is_media_block (n : ReactNode) : bool :=
  has_className "card__image" n.

Definition is_image_block (n : ReactNode) : bool :=
  is_media_block n && has_child_of_type "img" n.

Definition is_video_block (n : ReactNode) : bool :=
  is_media_block n && has_child_of_type "video" n.

Definition media_blocks (col : ReactNode) : list ReactNode :=
  filter is_media_block (card_children col).

(** The text below a node, in document order. *)
Fixpoint text_content (n : ReactNode) : string :=
  match n with
  | RText s => s
  | RElement _ _ _ cs =>
      (fix go (l : list ReactNode) : string :=
         match l with
         | [] => ""
         | c :: l' => String.append (text_content c) (go l')
         end) cs
  | _ => ""
  end.

Definition child_with_class (c : string) (col : ReactNode) : option ReactNode :=
  find (has_className c) (card_children col).

Definition card_heading (col : ReactNode) : option string :=
  option_map text_content (child_with_class "card__header" col).

Definition card_description (col : ReactNode) : option string :=
  option_map text_content (child_with_class "card__body" col).

Definition card_link (col : ReactNode) : option PropValue :=
  match child_with_class "card__footer" col with
  | Some footer =>
      match element_children footer with
      | a :: _ => element_prop "to" a
      | [] => None
      end
  | None => None
  end.

End SDKCards.

(** The revision at [src/pages/index.tsx]: an image or a text placeholder. *)
Module PagesIndex.
Import React SDKCards.

Definition Build_sdk (t d l c : string) (i p : option string) : SDK :=
  {| title := t; description := d; link := l; className := c;
     image := i; video := None; placeholder := p |}.

Definition sdks : list SDK :=
  [ Build_sdk "Logitech Actions SDK"
      "Create custom actions and integrations for Logitech gaming peripherals."
      "/docs/actions-sdk/intro" "actions-sdk"
      (Some "/img/mx-creative-console.gif") None;
    Build_sdk "LightSync SDK"
      "Control RGB lighting effects and synchronization across Logitech devices."
      "/docs/steering-wheel/intro" "lightsync-sdk"
      None (Some "🌈 RGB lighting animation");
    Build_sdk "TrueForce SDK"
      "Access advanced force feedback and haptic technology."
      "/docs/gamepanel/intro" "trueforce-sdk"
      None (Some "⚡ Force feedback animation");
    Build_sdk "Haptics G"
      "Implement haptic feedback and tactile responses in your applications."
      "/docs/led-illumination/intro" "haptics-sdk"
      None (Some "📳 Haptic pulse animation");
    Build_sdk "Video SDK"
      "Integrate with Logitech webcams and video streaming devices."
      "/docs/video-sdk/intro" "video-sdk"
      None (Some "🎥 Video streaming animation");
    Build_sdk "Blue Voice SDK"
      "Access professional voice processing and audio enhancement features."
      "/docs/blue-voice-sdk/intro" "blue-voice-sdk"
      None (Some "🎙️ Audio waveform animation") ].

(** The callback of [sdks.map((sdk, idx) => ...)]. *)
Definition card (sdk : SDK) (idx : nat) : ReactNode :=
  column sdk idx (image_block sdk) (placeholder_block sdk).

Definition cards (descriptors : list SDK) : list ReactNode :=
  array_map card descriptors.

Definition SDKGrid : ReactNode := grid_section (cards sdks).

End PagesIndex.

(** The revision at [src/unnamed/part_013]: an image and a video. *)
Module PagesIndexVideo.
Import React SDKCards.

Definition Build_sdk (t d l c : string) (i v : option string) : SDK :=
  {| title := t; description := d; link := l; className := c;
     image := i; video := v; placeholder := None |}.

Definition sdks : list SDK :=
  [ Build_sdk "Logitech Actions SDK"
      "Create custom actions and integrations for Logitech gaming peripherals."
      "/docs/actions-sdk/" "actions-sdk"
      (Some "/LogiDoc/img/mx-creative-console.gif") None;
    Build_sdk "LightSync SDK"
      "Control RGB lighting effects and synchronization across Logitech devices."
      "/docs/lightsync-sdk/intro" "lightsync-sdk"
      (Some "/LogiDoc/img/g-hub-article-lightsync-rgb-hero-desktop.webp") None;
    Build_sdk "TrueForce SDK"
      "Access advanced force feedback and haptic technology."
      "/docs/gamepanel/intro" "trueforce-sdk"
      None (Some "/LogiDoc/img/gaming-trueforce-hero-desktop.mp4");
    Build_sdk "Haptics G"
      "Implement haptic feedback and tactile responses in your applications."
      "/docs/led-illumination/intro" "haptics-sdk"
      (Some "/LogiDoc/img/cover-6.jpg") None;
    Build_sdk "Video SDK"
      "Integrate with Logitech webcams and video streaming devices."
      "/docs/video-sdk/intro" "video-sdk"
      (Some "/LogiDoc/img/images.jpg") None;
    Build_sdk "Blue Voice SDK"
      "Access professional voice processing and audio enhancement features."
      "/docs/blue-voice-sdk/intro" "blue-voice-sdk"
      (Some "/LogiDoc/img/download.jpg") None ].

(** The callback of [sdks.map((sdk, idx) => ...)]. *)
Definition card (sdk : SDK) (idx : nat) : ReactNode :=
  column sdk idx (image_block sdk) (video_block sdk).

Definition cards (descriptors : list SDK) : list ReactNode :=
  array_map card descriptors.

Definition SDKGrid : ReactNode := grid_section (cards sdks).

(** Descriptors beyond those of [sdks]: one with both media fields, one
    with neither. *)
Definition sdk_with_both : SDK :=
  Build_sdk "TrueForce SDK"
    "Access advanced force feedback and haptic technology."
    "/docs/gamepanel/intro" "trueforce-sdk"
    (Some "/LogiDoc/img/cover-6.jpg")
    (Some "/LogiDoc/img/gaming-trueforce-hero-desktop.mp4").

Definition sdk_without_media : SDK :=
  Build_sdk "Video SDK"
    "Integrate with Logitech webcams and video streaming devices."
    "/docs/video-sdk/intro" "video-sdk" None None.

End PagesIndexVideo.

(* ================================================================= *)
(** ** [sidebars.ts]: the sidebar tree *)

Module Sidebars.

(** An entry is a document id or a category of entries. *)
Inductive SidebarItem : Type :=
| Doc (id : string)
| Category (label : string) (collapsible collapsed : option bool)
           (items : list SidebarItem).

Definition sidebars : list (string * list SidebarItem) :=
  [ ("actionsSdkSidebar",
     [ Doc "actions-sdk/index";
       Doc "actions-sdk/overview";
       Doc "actions-sdk/getting-started";
       Doc "actions-sdk/installation";
       Doc "actions-sdk/authentication";
       Doc "actions-sdk/quick-start";
       Category "Core Concepts" None None
         [ Doc "actions-sdk/core-concepts/objects";
           Doc "actions-sdk/core-concepts/webhooks";
           Doc "actions-sdk/core-concepts/rate-limits" ];
       Doc "actions-sdk/api-reference";
       Category "Guides & Tutorials" None None
         [ Doc "actions-sdk/guides/payment-intents";
           Doc "actions-sdk/guides/save-cards";
           Doc "actions-sdk/guides/webhooks-guide" ];
       Doc "actions-sdk/samples";
       Doc "actions-sdk/error-handling";
       Doc "actions-sdk/release-notes";
       Doc "actions-sdk/faq";
       Doc "actions-sdk/support";
       Category "Plugin Development (Hidden)" (Some true) (Some true)
         [ Doc "actions-sdk/plugin-development/marketplace-approval-guidelines" ];
       Doc "actions-sdk/plugin-development/marketplace-approval-guidelines" ]);
    ("sdk2Sidebar",
     [ Category "Introduction" (Some false) None
         [ Doc "sdk2/getting-started";
           Doc "sdk2/your-first-changes";
           Doc "sdk2/plugin-environment" ];
       Category "Plugin Guides" (Some false) None
         [ Doc "sdk2/actions";
           Doc "sdk2/keys";
           Doc "sdk2/dials";
           Doc "sdk2/settings";
           Doc "sdk2/property-inspectors";
           Doc "sdk2/devices";
           Doc "sdk2/profiles";
           Doc "sdk2/logging";
           Doc "sdk2/deep-linking";
           Doc "sdk2/app-monitoring";
           Doc "sdk2/system";
           Doc "sdk2/localization";
           Doc "sdk2/distribution" ];
       Category "Style Guide" (Some false) None
         [ Doc "sdk2/plugin-guidelines";
           Doc "sdk2/code-linting";
           Doc "sdk2/submission-guidelines" ];
       Category "References" (Some false) None
         [ Doc "sdk2/manifest";
           Doc "sdk2/touchscreen-layout";
           Doc "sdk2/changes" ];
       Category "WebSocket API" (Some false) None
         [ Doc "sdk2/websocket-api-plugin";
           Doc "sdk2/websocket-api-property-inspector";
           Doc "sdk2/websocket-api-changes" ] ]) ].

(** The document ids below an entry, in order. *)
Fixpoint leaf_ids (item : SidebarItem) : list string :=
  match item with
  | Doc id => [id]
  | Category _ _ _ items =>
      (fix go (l : list SidebarItem) : list string :=
         match l with
         | [] => []
         | i :: l' => leaf_ids i ++ go l'
         end) items
  end.

Definition sidebar_leaf_ids (entries : list SidebarItem) : list string :=
  flat_map leaf_ids entries.

Definition all_leaf_ids : list string :=
  flat_map (fun sb => sidebar_leaf_ids (snd sb)) sidebars.

(** Document ids of the files listed under [docs/]: the path below
    [docs/] without its extension.  The site has further documents, so
    this is a part of the corpus only. *)
Definition named_documents : list string :=
  [ "actions-sdk/api-reference";
    "actions-sdk/authentication";
    "actions-sdk/core-concepts/objects";
    "actions-sdk/faq";
    "actions-sdk/getting-started";
    "actions-sdk/guides/payment-intents";
    "actions-sdk/guides/save-cards";
    "actions-sdk/index";
    "actions-sdk/installation";
    "actions-sdk/overview";
    "actions-sdk/plugin-features/manage-plugin-settings";
    "actions-sdk/release-notes";
    "actions-sdk/tutorial/add-simple-adjustment";
    "actions-sdk/tutorial/add-simple-command";
    "gamepanel/intro";
    "led-illumination/intro";
    "lightsync-sdk/troubleshooting";
    "lightsync-sdk/udk/getting-started";
    "steering-wheel/intro" ].

Definition resolves_in (corpus : list string) (id : string) : bool :=
  existsb (String.eqb id) corpus.

End Sidebars.

(* ================================================================= *)
(** ** Predicates used in the statements *)

Module NavSpec.
Import DOM Hooks ConditionalNav.

Section Predicates.
Variable Rest : Type.

(** The instance is mounted, its effect last ran for path [p], the pending
    cleanup is the component's, and the class is on the body exactly when
    [p] contains the prefix. *)
Definition settled (p : string) (st : Instance Rest) : Prop :=
  exists hook,
    snd st = Some hook /\
    memoizedDeps hook = [p] /\
    destroy hook = cleanup /\
    (body_has_class marker (fst st) <->
     JSString.includes p actions_sdk_prefix = true).

(** Not mounted yet, or settled for some path. *)
Definition well_formed (st : Instance Rest) : Prop :=
  snd st = None \/ exists p, settled p st.

(** [d'] differs from [d] at most by the marker class on the body: the
    rest of the document, the body's tag and other attributes, and the
    other classes in their order are those of [d]. *)
Definition same_but_marker (d d' : Document Rest) : Prop :=
  rest d' = rest d /\
  tagName (body d') = tagName (body d) /\
  attributes (body d') = attributes (body d) /\
  filter (fun c => negb (String.eqb marker c)) (classList (body d')) =
  filter (fun c => negb (String.eqb marker c)) (classList (body d)).

End Predicates.

Arguments settled {Rest} p st.
Arguments well_formed {Rest} st.
Arguments same_but_marker {Rest} d d'.

End NavSpec.

(* ================================================================= *)
(** ** Reading an element tree *)

Module ReactDOM.
Import React.

(** The elements of type [t] in the tree below [n] ([n] included), in
    document order. *)
Fixpoint elements_of_type (t : string) (n : ReactNode) : list ReactNode :=
  match n with
  | RElement ty _ _ cs =>
      (if String.eqb ty t then [n] else []) ++
      (fix go (l : list ReactNode) : list ReactNode :=
         match l with
         | [] => []
         | c :: l' => elements_of_type t c ++ go l'
         end) cs
  | _ => []
  end.

(** What a node contributes to its parent's output: nothing for [null],
    [undefined] and the empty string, the children in turn for a fragment,
    the node itself otherwise. *)
Fixpoint output (n : ReactNode) : list ReactNode :=
  match n with
  | RNull | RUndefined => []
  | RText s => if JSString.truthy s then [n] else []
  | RElement ty _ _ cs =>
      if String.eqb ty "Fragment"
      then (fix go (l : list ReactNode) : list ReactNode :=
              match l with
              | [] => []
              | c :: l' => output c ++ go l'
              end) cs
      else [n]
  end.

(** The [Heading] elements of a tree, each with its level and its text. *)
Definition headings (n : ReactNode) : list (option PropValue * string) :=
  map (fun h => (element_prop "as" h, SDKCards.text_content h))
      (elements_of_type "Heading" n).

(** The targets of the [Link] elements of a tree. *)
Definition links_of (n : ReactNode) : list (option PropValue) :=
  map (element_prop "to") (elements_of_type "Link" n).

(** The [img] elements of a tree, each with its source and its alternative
    text. *)
Definition images_of (n : ReactNode)
  : list (option PropValue * option PropValue) :=
  map (fun e => (element_prop "src" e, element_prop "alt" e))
      (elements_of_type "img" n).

(** The [video] elements of a tree, each with its source and its
    [autoPlay] and [muted] attributes. *)
Definition videos_of (n : ReactNode)
  : list (option PropValue * option PropValue * option PropValue) :=
  map (fun e => (element_prop "src" e, element_prop "autoPlay" e,
                 element_prop "muted" e))
      (elements_of_type "video" n).

(** The string of an optional field that passes the test [field && ...],
    as a list of at most one element. *)
Definition set_value (f : option string) : list string :=
  match f with
  | Some s => if JSString.truthy s then [s] else []
  | None => []
  end.

End ReactDOM.

(* ================================================================= *)
(** ** [src/theme/Root.tsx] *)

Module ThemeRoot.
Import Hooks React ConditionalNav.

Section Root.
Variable Rest : Type.

(** [<><ConditionalNavScript />{children}</>]: the fragment, and the
    effects of the components rendered in it. *)
Definition Root (location : Location) (children : ReactNode)
  : ReactNode * list (Effect Rest) :=
  let nav := ConditionalNavScript Rest location in
  (RElement "Fragment" None [] [fst nav; children], [snd nav]).

End Root.

End ThemeRoot.

(* ================================================================= *)
(** ** [src/pages/index.tsx]: the header and the page *)

Module HomePage.
Import React SDKCards.

(** The part of [siteConfig] the page reads. *)
Record SiteConfig : Type := {
  config_title : string;
  config_tagline : string
}.

(** [HomepageHeader]; [heroBanner] is the class [styles.heroBanner] of the
    page's CSS module. *)
Definition HomepageHeader (siteConfig : SiteConfig) (heroBanner : string)
  : ReactNode :=
  RElement "header" None
    [("className", PString (clsx ["hero hero--primary"; heroBanner]))]
    [RElement "div" None [("className", PString "container")]
       [RElement "Heading" None
          [("as", PString "h1"); ("className", PString "hero__title")]
          [RText (config_title siteConfig)]]].

(** [Home], around the grid its revision renders. *)
Definition Home (siteConfig : SiteConfig) (heroBanner : string)
  (grid : ReactNode) : ReactNode :=
  RElement "Layout" None
    [("title", PString (config_title siteConfig));
     ("description",
      PString "Official documentation for Logitech gaming SDKs and developer tools")]
    [HomepageHeader siteConfig heroBanner;
     RElement "main" None [] [grid]].

End HomePage.

(* ================================================================= *)
(** ** Further predicates *)

Module NavOrder.
Import DOM ConditionalNav.

(** The body's class list is [l0], or [l0] with the marker appended. *)
Definition marker_appended_at_most {Rest : Type}
  (l0 : DOMTokenList) (d : Document Rest) : Prop :=
  classList (body d) = l0 \/ classList (body d) = l0 ++ [marker].

End NavOrder.

(* ================================================================= *)
(** * Facts *)

(** ** Strings *)

Module JSStringFacts.
Import JSString.

Lemma startsWith_append (sub b : string) :
  startsWith (sub ++ b)%string sub = true.
Proof.
  induction sub as [|c sub IH]; simpl.
  - reflexivity.
  - now rewrite Ascii.eqb_refl, IH.
Qed.

Lemma startsWith_split (s sub : string) :
  startsWith s sub = true -> exists b, s = (sub ++ b)%string.
Proof.
  revert s; induction sub as [|c sub IH]; intros s H.
  - now exists s.
  - destruct s as [|d s]; simpl in H; [discriminate|].
    apply andb_true_iff in H as [Hc Hs].
    apply Ascii.eqb_eq in Hc; subst d.
    destruct (IH _ Hs) as [b ->].
    now exists b.
Qed.

Lemma includes_append (a sub b : string) :
  includes (a ++ sub ++ b)%string sub = true.
Proof.
  induction a as [|c a IH].
  - change (""%string ++ sub ++ b)%string with (sub ++ b)%string.
    destruct (sub ++ b)%string eqn:E; simpl includes;
      rewrite <- E, startsWith_append; reflexivity.
  - simpl. rewrite IH. apply orb_true_r.
Qed.

Lemma includes_split (s sub : string) :
  includes s sub = true -> exists a b, s = (a ++ sub ++ b)%string.
Proof.
  induction s as [|c s IH]; simpl; intros H.
  - rewrite orb_false_r in H.
    destruct (startsWith_split _ _ H) as [b Hb].
    now exists ""%string, b.
  - apply orb_true_iff in H as [H|H].
    + destruct (startsWith_split _ _ H) as [b Hb].
      now exists ""%string, b.
    + destruct (IH H) as (a & b & ->).
      now exists (String c a), b.
Qed.

Lemma append_empty_r (s : string) : (s ++ "")%string = s.
Proof.
  induction s as [|c s IH]; simpl; [reflexivity | now rewrite IH].
Qed.

(** [includes] is substring containment. *)
Lemma includes_iff (s sub : string) :
  includes s sub = true <-> exists a b, s = (a ++ sub ++ b)%string.
Proof.
  split.
  - apply includes_split.
  - intros (a & b & ->). apply includes_append.
Qed.

End JSStringFacts.

(** ** Token lists *)

Module DOMFacts.
Import DOM.

Lemma contains_In (t : string) (l : DOMTokenList) :
  contains t l = true <-> In t l.
Proof.
  unfold contains. rewrite existsb_exists. split.
  - intros (x & Hx & E). apply String.eqb_eq in E. now subst.
  - intros H. exists t. split; [assumption | apply String.eqb_refl].
Qed.

Lemma In_without (t x : string) (l : DOMTokenList) :
  In x (filter (fun c => negb (String.eqb t c)) l) <-> In x l /\ t <> x.
Proof.
  rewrite filter_In, negb_true_iff, String.eqb_neq. tauto.
Qed.

Lemma not_In_without (t : string) (l : DOMTokenList) :
  ~ In t (filter (fun c => negb (String.eqb t c)) l).
Proof.
  rewrite In_without. tauto.
Qed.

Lemma without_absent (t : string) (l : DOMTokenList) :
  ~ In t l -> filter (fun c => negb (String.eqb t c)) l = l.
Proof.
  induction l as [|x l IH]; simpl; intros H.
  - reflexivity.
  - destruct (String.eqb_spec t x) as [->|_]; simpl.
    + exfalso. apply H. now left.
    + f_equal. apply IH. intros HI. apply H. now right.
Qed.

Lemma without_idem (t : string) (l : DOMTokenList) :
  filter (fun c => negb (String.eqb t c))
    (filter (fun c => negb (String.eqb t c)) l) =
  filter (fun c => negb (String.eqb t c)) l.
Proof.
  apply without_absent, not_In_without.
Qed.

Lemma without_snoc (t : string) (l : DOMTokenList) :
  filter (fun c => negb (String.eqb t c)) (l ++ [t]) =
  filter (fun c => negb (String.eqb t c)) l.
Proof.
  rewrite filter_app. simpl. rewrite String.eqb_refl. simpl.
  apply app_nil_r.
Qed.

(** A valid token is accepted: the call returns. *)
Lemma add_valid (t : string) (l : DOMTokenList) :
  validate t = Ok tt ->
  add t l = Ok (if contains t l then l else l ++ [t]).
Proof.
  intros H. unfold add. now rewrite H.
Qed.

Lemma remove_valid (t : string) (l : DOMTokenList) :
  validate t = Ok tt ->
  remove t l = Ok (filter (fun c => negb (String.eqb t c)) l).
Proof.
  intros H. unfold remove. now rewrite H.
Qed.

(** The token set stays duplicate-free. *)
Lemma add_NoDup (t : string) (l l' : DOMTokenList) :
  NoDup l -> add t l = Ok l' -> NoDup l'.
Proof.
  intros Hl. unfold add. destruct (validate t); simpl; [|discriminate].
  intros [= <-]. destruct (contains t l) eqn:E; [assumption|].
  apply NoDup_app; [assumption | repeat constructor; intros [] | ].
  intros x Hx [<-|[]]. apply contains_In in Hx. congruence.
Qed.

Lemma remove_NoDup (t : string) (l l' : DOMTokenList) :
  NoDup l -> remove t l = Ok l' -> NoDup l'.
Proof.
  intros Hl. unfold remove. destruct (validate t); simpl; [|discriminate].
  intros [= <-]. now apply NoDup_filter.
Qed.

End DOMFacts.

(** ** The effect and the mounted instance *)

Module NavFacts.
Import DOM Hooks ConditionalNav NavSpec DOMFacts.

Lemma validate_marker : validate marker = Ok tt.
Proof. reflexivity. Qed.

(** Projections and binds are unfolded; [marker] and the prefix stay folded. *)
Ltac dom_simpl :=
  cbn [body rest classList tagName attributes with_body with_classList
       fst snd bind memoizedDeps destroy create deps ConditionalNavScript
       areHookInputsEqual andb navigate app] in *.

Section Facts.
Variable Rest : Type.
Implicit Types (d : Document Rest) (st : Instance Rest) (loc : Location).

Lemma same_but_marker_refl d : same_but_marker d d.
Proof. now repeat split. Qed.

Lemma same_but_marker_trans d1 d2 d3 :
  same_but_marker d1 d2 -> same_but_marker d2 d3 -> same_but_marker d1 d3.
Proof.
  intros (A1 & A2 & A3 & A4) (B1 & B2 & B3 & B4).
  repeat split; congruence.
Qed.

(** What the two DOM calls of the component return. *)
Lemma add_marker_eq d :
  body_classList_add marker d =
  Ok (with_body
        (with_classList
           (if contains marker (classList (body d))
            then classList (body d)
            else classList (body d) ++ [marker])
           (body d)) d).
Proof.
  unfold body_classList_add. now rewrite (add_valid _ _ validate_marker).
Qed.

Lemma remove_marker_eq d :
  body_classList_remove marker d =
  Ok (with_body
        (with_classList
           (filter (fun c => negb (String.eqb marker c)) (classList (body d)))
           (body d)) d).
Proof.
  unfold body_classList_remove. now rewrite (remove_valid _ _ validate_marker).
Qed.

Lemma add_marker_returns d :
  exists d', body_classList_add marker d = Ok d' /\
             body_has_class marker d' /\ same_but_marker d d'.
Proof.
  eexists. split; [apply add_marker_eq|].
  unfold body_has_class, same_but_marker; dom_simpl.
  destruct (contains marker (classList (body d))) eqn:E.
  - split; [now apply contains_In | now repeat split].
  - split; [apply in_or_app; right; now left|].
    repeat split. apply without_snoc.
Qed.

Lemma remove_marker_returns d :
  exists d', body_classList_remove marker d = Ok d' /\
             ~ body_has_class marker d' /\ same_but_marker d d'.
Proof.
  eexists. split; [apply remove_marker_eq|].
  unfold body_has_class, same_but_marker; dom_simpl.
  split; [apply not_In_without|].
  repeat split. apply (without_idem marker).
Qed.

(** The effect body returns, and decides the class by the path alone. *)
Lemma effect_body_returns loc d :
  exists d', effect_body loc d = Ok d' /\
             (body_has_class marker d' <->
              JSString.includes (pathname loc) actions_sdk_prefix = true) /\
             same_but_marker d d'.
Proof.
  unfold effect_body.
  destruct (JSString.includes (pathname loc) actions_sdk_prefix).
  - destruct (add_marker_returns d) as (d' & E & H & F).
    exists d'. split; [exact E|]. split; [tauto | exact F].
  - destruct (remove_marker_returns d) as (d' & E & H & F).
    exists d'. split; [exact E|]. split; [|exact F].
    split; [intros; contradiction | discriminate].
Qed.

(** Running the body on its own result changes nothing. *)
Lemma effect_body_fixpoint loc d d' :
  effect_body loc d = Ok d' -> effect_body loc d' = Ok d'.
Proof.
  unfold effect_body.
  destruct (JSString.includes (pathname loc) actions_sdk_prefix).
  - rewrite !add_marker_eq. intros [= <-]. dom_simpl.
    destruct d as [[tg cl at_] r]; dom_simpl.
    destruct (contains marker cl) eqn:E.
    + now rewrite E.
    + assert (H : contains marker (cl ++ [marker]) = true).
      { apply contains_In, in_or_app. right. now left. }
      now rewrite H.
  - rewrite !remove_marker_eq. intros [= <-].
    unfold with_body, with_classList.
    cbn [body classList rest tagName attributes].
    now rewrite (without_idem marker).
Qed.

(** One render of a well-formed instance returns a settled one. *)
Lemma render_settles loc st :
  well_formed st ->
  exists st', render loc st = Ok st' /\
              settled (pathname loc) st' /\
              same_but_marker (fst st) (fst st').
Proof.
  destruct st as [d [h|]]; intros [W|W]; try discriminate.
  - destruct W as (p & h' & [= <-] & Hd & Hc & Hm). dom_simpl.
    unfold render, commitUpdate; dom_simpl. rewrite Hd; dom_simpl.
    destruct (String.eqb_spec (pathname loc) p) as [->|N]; dom_simpl.
    + exists (d, Some h).
      split; [reflexivity|]. split; [|apply same_but_marker_refl].
      exists h. split; [reflexivity|]. now split; [|split].
    + rewrite Hc. unfold cleanup.
      destruct (remove_marker_returns d) as (d1 & E1 & _ & F1).
      rewrite E1; dom_simpl.
      destruct (effect_body_returns loc d1) as (d2 & E2 & H2 & F2).
      rewrite E2; dom_simpl.
      eexists. split; [reflexivity|]. split.
      * eexists. split; [reflexivity|]. dom_simpl.
        now split; [|split].
      * dom_simpl. eapply same_but_marker_trans; eassumption.
  - unfold render, commitMount; dom_simpl.
    destruct (effect_body_returns loc d) as (d2 & E2 & H2 & F2).
    rewrite E2; dom_simpl.
    eexists. split; [reflexivity|]. split.
    + eexists. split; [reflexivity|]. dom_simpl.
      now split; [|split].
    + exact F2.
  - destruct W as (p & h' & E & _). discriminate.
Qed.

Lemma settled_well_formed p st : settled p st -> well_formed st.
Proof. intros H. right. now exists p. Qed.

Lemma fresh_well_formed d : well_formed (fresh d).
Proof. now left. Qed.

(** Any run of navigations returns a well-formed instance. *)
Lemma navigate_well_formed (locs : list Location) st :
  well_formed st ->
  exists st', navigate locs st = Ok st' /\
              well_formed st' /\
              same_but_marker (fst st) (fst st').
Proof.
  revert st. induction locs as [|loc locs IH]; intros st W; dom_simpl.
  - exists st. split; [reflexivity|]. split; [exact W|].
    apply same_but_marker_refl.
  - destruct (render_settles loc st W) as (st1 & E1 & S1 & F1).
    rewrite E1; dom_simpl.
    destruct (IH st1 (settled_well_formed _ _ S1)) as (st2 & E2 & W2 & F2).
    exists st2. split; [exact E2|]. split; [exact W2|].
    eapply same_but_marker_trans; eassumption.
Qed.

(** The token set of the body stays duplicate-free under the effect. *)
Lemma effect_body_NoDup loc d d' :
  NoDup (classList (body d)) ->
  effect_body loc d = Ok d' ->
  NoDup (classList (body d')).
Proof.
  intros N. unfold effect_body.
  destruct (JSString.includes (pathname loc) actions_sdk_prefix).
  - rewrite add_marker_eq. intros [= <-]. dom_simpl.
    eapply add_NoDup; [exact N | apply (add_valid _ _ validate_marker)].
  - rewrite remove_marker_eq. intros [= <-].
    unfold with_body, with_classList. cbn [body classList].
    now apply NoDup_filter.
Qed.

Lemma navigate_app (l1 l2 : list Location) st :
  navigate (l1 ++ l2) st = st' <- navigate l1 st ;; navigate l2 st'.
Proof.
  revert st. induction l1 as [|loc l1 IH]; intros st; dom_simpl.
  - reflexivity.
  - destruct (render loc st); dom_simpl; [apply IH | reflexivity].
Qed.

(** After a run that ends at [loc], the instance is settled for its path. *)
Lemma navigate_settles (locs : list Location) loc st :
  well_formed st ->
  exists st', navigate (locs ++ [loc]) st = Ok st' /\
              settled (pathname loc) st' /\
              same_but_marker (fst st) (fst st').
Proof.
  intros W. rewrite navigate_app.
  destruct (navigate_well_formed locs st W) as (st1 & E1 & W1 & F1).
  rewrite E1; dom_simpl.
  destruct (render_settles loc st1 W1) as (st2 & E2 & S2 & F2).
  rewrite E2; dom_simpl.
  exists st2. split; [reflexivity|]. split; [exact S2|].
  eapply same_but_marker_trans; eassumption.
Qed.

(** Rendering again at the path the instance is settled for is a no-op. *)
Lemma render_same_path loc st :
  settled (pathname loc) st -> render loc st = Ok st.
Proof.
  destruct st as [d [h|]]; intros (h' & E & Hd & _); dom_simpl;
    [|discriminate].
  injection E as <-.
  unfold render, commitUpdate; dom_simpl.
  now rewrite Hd; dom_simpl; rewrite String.eqb_refl.
Qed.

(** Unmounting a well-formed instance returns, without the class. *)
Lemma unmount_well_formed st :
  well_formed st ->
  exists st', unmount st = Ok st' /\ snd st' = None /\
              same_but_marker (fst st) (fst st') /\
              (snd st <> None -> ~ body_has_class marker (fst st')).
Proof.
  destruct st as [d [h|]]; intros [W|W]; try discriminate.
  - destruct W as (p & h' & [= <-] & _ & Hc & _).
    unfold unmount, commitUnmount; dom_simpl. rewrite Hc. unfold cleanup.
    destruct (remove_marker_returns d) as (d1 & E1 & H1 & F1).
    rewrite E1; dom_simpl. exists (d1, None).
    split; [reflexivity|]. split; [reflexivity|]. split; [exact F1|].
    intros _. exact H1.
  - exists (d, None).
    split; [reflexivity|]. split; [reflexivity|].
    split; [apply same_but_marker_refl|].
    intros N. now contradiction N.
  - destruct W as (p & h' & E & _). discriminate.
Qed.

End Facts.

End NavFacts.

(* ================================================================= *)
(** * The route-conditional class: properties *)

Section RouteConditionalClass.
Import DOM Hooks React ConditionalNav NavSpec NavFacts.

(** C1. For every path that contains ['/docs/actions-sdk/'], whatever the
    document at page load and whatever locations were rendered before, once
    the component has rendered at that path the call returns and the class
    ['actions-sdk-page'] is on the document body. *)
Theorem marker_present_on_matching_path
  (Rest : Type) (document : Document Rest)
  (earlier : list Location) (location : Location) :
  JSString.includes (pathname location) "/docs/actions-sdk/" = true ->
  exists st,
    navigate (earlier ++ [location]) (fresh document) = Ok st /\
    In "actions-sdk-page" (classList (body (fst st))).
Proof.
  intros H.
  destruct (navigate_settles Rest earlier location (fresh document)
              (fresh_well_formed Rest document)) as (st & E & S & _).
  exists st. split; [exact E|].
  destruct S as (hook & _ & _ & _ & Hm). now apply Hm.
Qed.

Lemma marker_present_on_matching_path_witness :
  JSString.includes
    (pathname (at_path "/LogiDoc/docs/actions-sdk/overview"))
    "/docs/actions-sdk/" = true /\
  exists st,
    navigate ([at_path "/LogiDoc/"] ++
              [at_path "/LogiDoc/docs/actions-sdk/overview"])
             (fresh sample_document) = Ok st /\
    In "actions-sdk-page" (classList (body (fst st))).
Proof.
  split.
  - reflexivity.
  - apply (marker_present_on_matching_path unit sample_document
             [at_path "/LogiDoc/"]
             (at_path "/LogiDoc/docs/actions-sdk/overview")).
    reflexivity.
Defined.

(** C2. For every path that does not contain ['/docs/actions-sdk/'], once
    the component has rendered at that path the call returns and the class
    ['actions-sdk-page'] is not on the document body. *)
Theorem marker_absent_on_other_path
  (Rest : Type) (document : Document Rest)
  (earlier : list Location) (location : Location) :
  JSString.includes (pathname location) "/docs/actions-sdk/" = false ->
  exists st,
    navigate (earlier ++ [location]) (fresh document) = Ok st /\
    ~ In "actions-sdk-page" (classList (body (fst st))).
Proof.
  intros H.
  destruct (navigate_settles Rest earlier location (fresh document)
              (fresh_well_formed Rest document)) as (st & E & S & _).
  exists st. split; [exact E|].
  destruct S as (hook & _ & _ & _ & Hm). intros HI.
  apply Hm in HI. change actions_sdk_prefix with "/docs/actions-sdk/" in HI.
  congruence.
Qed.

Lemma marker_absent_on_other_path_witness :
  JSString.includes
    (pathname (at_path "/LogiDoc/docs/lightsync-sdk/intro"))
    "/docs/actions-sdk/" = false /\
  exists st,
    navigate ([at_path "/LogiDoc/docs/actions-sdk/overview"] ++
              [at_path "/LogiDoc/docs/lightsync-sdk/intro"])
             (fresh sample_document) = Ok st /\
    ~ In "actions-sdk-page" (classList (body (fst st))).
Proof.
  split.
  - reflexivity.
  - apply (marker_absent_on_other_path unit sample_document
             [at_path "/LogiDoc/docs/actions-sdk/overview"]
             (at_path "/LogiDoc/docs/lightsync-sdk/intro")).
    reflexivity.
Defined.

(** C3. Teardown: the cleanup function removes ['actions-sdk-page'] from
    any document it runs on, and for every run of the component, whatever
    path it ended at, unmounting returns a document without the class. *)
Theorem marker_absent_after_unmount (Rest : Type) :
  (forall document : Document Rest,
     exists document',
       cleanup document = Ok document' /\
       ~ In "actions-sdk-page" (classList (body document'))) /\
  (forall (document : Document Rest)
          (earlier : list Location) (location : Location),
     exists st st',
       navigate (earlier ++ [location]) (fresh document) = Ok st /\
       unmount st = Ok st' /\
       snd st' = None /\
       ~ In "actions-sdk-page" (classList (body (fst st')))).
Proof.
  split.
  - intros document.
    destruct (remove_marker_returns Rest document) as (d' & E & H & _).
    exists d'. split; [exact E | exact H].
  - intros document earlier location.
    destruct (navigate_settles Rest earlier location (fresh document)
                (fresh_well_formed Rest document)) as (st & E & S & _).
    destruct (unmount_well_formed Rest st (settled_well_formed Rest _ _ S))
      as (st' & E' & N & _ & H).
    exists st, st'. repeat (split; [assumption|]).
    apply H. destruct S as (hook & -> & _). discriminate.
Qed.

(** C4. Processing the same path twice in a row is idempotent: the effect
    body run on its own result returns that result, and rendering twice at
    the same location leaves the instance (document and hook) as the first
    render left it. *)
Theorem processing_same_path_twice_is_idempotent (Rest : Type) :
  (forall (location : Location) (document : Document Rest),
     exists document1,
       effect_body location document = Ok document1 /\
       effect_body location document1 = Ok document1) /\
  (forall (document : Document Rest)
          (earlier : list Location) (location : Location),
     navigate (earlier ++ [location; location]) (fresh document) =
     navigate (earlier ++ [location]) (fresh document)).
Proof.
  split.
  - intros location document.
    destruct (effect_body_returns Rest location document) as (d1 & E & _).
    exists d1. split; [exact E|]. now apply effect_body_fixpoint with document.
  - intros document earlier location.
    change [location; location] with ([location] ++ [location]).
    rewrite app_assoc, (navigate_app Rest (earlier ++ [location])).
    destruct (navigate_settles Rest earlier location (fresh document)
                (fresh_well_formed Rest document)) as (st & E & S & _).
    rewrite E. cbn [bind navigate].
    now rewrite (render_same_path Rest location st S).
Qed.

(** C8. The component renders [null]; the effect body, the cleanup, every
    run of renders and the unmount return a document that differs from the
    one they started from at most by the class ['actions-sdk-page'] on the
    body. *)
Theorem only_the_body_class_list_changes (Rest : Type) :
  (forall location : Location,
     fst (ConditionalNavScript Rest location) = RNull) /\
  (forall (location : Location) (document : Document Rest),
     exists document',
       effect_body location document = Ok document' /\
       same_but_marker document document') /\
  (forall document : Document Rest,
     exists document',
       cleanup document = Ok document' /\
       same_but_marker document document') /\
  (forall (document : Document Rest) (locations : list Location),
     exists st st',
       navigate locations (fresh document) = Ok st /\
       unmount st = Ok st' /\
       same_but_marker document (fst st) /\
       same_but_marker document (fst st')).
Proof.
  split; [reflexivity|]. split; [|split].
  - intros location document.
    destruct (effect_body_returns Rest location document) as (d' & E & _ & F).
    now exists d'.
  - intros document.
    destruct (remove_marker_returns Rest document) as (d' & E & _ & F).
    now exists d'.
  - intros document locations.
    destruct (navigate_well_formed Rest locations (fresh document)
                (fresh_well_formed Rest document)) as (st & E & W & F).
    destruct (unmount_well_formed Rest st W) as (st' & E' & _ & F' & _).
    exists st, st'. repeat (split; [assumption|]).
    now apply same_but_marker_trans with (fst st).
Qed.

(** C9. The test is containment, not an anchored prefix: a path with
    ['/docs/actions-sdk/'] at any position gets the class (the deployed
    path ['/LogiDoc/docs/actions-sdk/overview'] does not start with it and
    still matches), and the section root ['/docs/actions-sdk'] without the
    trailing slash does not get it. *)
Theorem path_test_is_substring_containment
  (Rest : Type) (document : Document Rest) (earlier : list Location) :
  (forall a b s h : string,
     exists st,
       navigate
         (earlier ++
          [{| pathname := (a ++ "/docs/actions-sdk/" ++ b)%string;
              search := s; hash := h |}])
         (fresh document) = Ok st /\
       In "actions-sdk-page" (classList (body (fst st)))) /\
  (JSString.startsWith "/LogiDoc/docs/actions-sdk/overview"
     "/docs/actions-sdk/" = false /\
   JSString.includes "/LogiDoc/docs/actions-sdk/overview"
     "/docs/actions-sdk/" = true) /\
  (forall s h : string,
     exists st,
       navigate
         (earlier ++
          [{| pathname := "/docs/actions-sdk"; search := s; hash := h |}])
         (fresh document) = Ok st /\
       ~ In "actions-sdk-page" (classList (body (fst st)))).
Proof.
  split; [|split].
  - intros a b s h.
    destruct (navigate_settles Rest earlier
                {| pathname := (a ++ "/docs/actions-sdk/" ++ b)%string;
                   search := s; hash := h |}
                (fresh document) (fresh_well_formed Rest document))
      as (st & E & S & _).
    exists st. split; [exact E|].
    destruct S as (hook & _ & _ & _ & Hm). apply Hm.
    apply JSStringFacts.includes_append.
  - split; reflexivity.
  - intros s h.
    destruct (navigate_settles Rest earlier
                {| pathname := "/docs/actions-sdk"; search := s; hash := h |}
                (fresh document) (fresh_well_formed Rest document))
      as (st & E & S & _).
    exists st. split; [exact E|].
    destruct S as (hook & _ & _ & _ & Hm). intros HI.
    apply Hm in HI. discriminate HI.
Qed.

End RouteConditionalClass.

(* ================================================================= *)
(** * The SDK grid: properties *)

Module CardFacts.
Import React SDKCards.

Section MapFrom.
Context {A B : Type} (f : A -> nat -> B).

Lemma map_from_length (l : list A) (k : nat) :
  length (map_from f k l) = length l.
Proof.
  revert k. induction l as [|x l IH]; intros k; simpl.
  - reflexivity.
  - now rewrite IH.
Qed.

Lemma map_from_nth_error (l : list A) (k i : nat) :
  nth_error (map_from f k l) i =
  option_map (fun x => f x (k + i)) (nth_error l i).
Proof.
  revert k i. induction l as [|x l IH]; intros k [|i]; simpl; trivial.
  - now rewrite Nat.add_0_r.
  - rewrite IH. now rewrite Nat.add_succ_r.
Qed.

Lemma array_map_length (l : list A) :
  length (array_map f l) = length l.
Proof. apply map_from_length. Qed.

Lemma array_map_nth_error (l : list A) (i : nat) :
  nth_error (array_map f l) i = option_map (fun x => f x i) (nth_error l i).
Proof. apply (map_from_nth_error l 0 i). Qed.

End MapFrom.

(** A conditional block is a [card__image] element exactly when its field
    is set. *)
Lemma image_block_media (sdk : SDK) :
  is_media_block (image_block sdk) = field_set (image sdk) /\
  is_image_block (image_block sdk) = field_set (image sdk) /\
  is_video_block (image_block sdk) = false.
Proof.
  unfold image_block. destruct (image sdk) as [[|c s]|]; now repeat split.
Qed.

Lemma video_block_media (sdk : SDK) :
  is_media_block (video_block sdk) = field_set (video sdk) /\
  is_video_block (video_block sdk) = field_set (video sdk) /\
  is_image_block (video_block sdk) = false.
Proof.
  unfold video_block. destruct (video sdk) as [[|c s]|]; now repeat split.
Qed.

Lemma placeholder_block_media (sdk : SDK) :
  is_media_block (placeholder_block sdk) = false.
Proof.
  unfold placeholder_block. now destruct (placeholder sdk) as [[|c s]|].
Qed.

(** The media blocks of a column are those of its two conditional
    positions. *)
Lemma column_media_blocks (sdk : SDK) (idx : nat) (first second : ReactNode) :
  media_blocks (column sdk idx first second) =
  filter is_media_block [first; second].
Proof. reflexivity. Qed.

(** Header, body and footer are found whatever the conditional positions
    hold, as long as those are not themselves header, body or footer. *)
Lemma column_reads_back (sdk : SDK) (idx : nat) (first second : ReactNode) :
  (forall c, In c ["card__header"; "card__body"; "card__footer"] ->
             has_className c first = false /\ has_className c second = false) ->
  element_key (column sdk idx first second) = Some idx /\
  card_heading (column sdk idx first second) = Some (title sdk) /\
  card_description (column sdk idx first second) = Some (description sdk) /\
  card_link (column sdk idx first second) = Some (PString (link sdk)).
Proof.
  intros H.
  destruct (H "card__header") as [H1 H2]; [simpl; tauto|].
  destruct (H "card__body") as [B1 B2]; [simpl; tauto|].
  destruct (H "card__footer") as [F1 F2]; [simpl; tauto|].
  unfold card_heading, card_description, card_link, child_with_class,
    card_children, column.
  cbn [element_children element_key find].
  rewrite H1, H2, B1, B2, F1, F2. cbn.
  now rewrite !JSStringFacts.append_empty_r.
Qed.

Lemma conditional_blocks_not_fixed (sdk : SDK) (c : string) :
  In c ["card__header"; "card__body"; "card__footer"] ->
  has_className c (image_block sdk) = false /\
  has_className c (video_block sdk) = false /\
  has_className c (placeholder_block sdk) = false.
Proof.
  unfold image_block, video_block, placeholder_block.
  intros [<-|[<-|[<-|[]]]];
    destruct (image sdk) as [[|? ?]|], (video sdk) as [[|? ?]|],
             (placeholder sdk) as [[|? ?]|]; now repeat split.
Qed.

End CardFacts.

Section SDKGridProperties.
Import React SDKCards CardFacts.

(** The number of media blocks of a card, for any descriptor. *)
Lemma media_blocks_count (sdk : SDK) (idx : nat) :
  length (media_blocks (PagesIndexVideo.card sdk idx)) =
  Nat.b2n (field_set (image sdk)) + Nat.b2n (field_set (video sdk)) /\
  length (media_blocks (PagesIndex.card sdk idx)) =
  Nat.b2n (field_set (image sdk)).
Proof.
  unfold PagesIndexVideo.card, PagesIndex.card.
  rewrite !column_media_blocks. cbn [filter].
  destruct (image_block_media sdk) as (-> & _).
  destruct (video_block_media sdk) as (-> & _).
  rewrite placeholder_block_media.
  now destruct (field_set (image sdk)), (field_set (video sdk)).
Qed.

(** The six descriptors of each revision give six cards; in the revision
    with videos each card has one media block, the third a video. *)
Example six_cards :
  length (PagesIndex.cards PagesIndex.sdks) = 6 /\
  length (PagesIndexVideo.cards PagesIndexVideo.sdks) = 6 /\
  map (fun c => length (media_blocks c))
      (PagesIndexVideo.cards PagesIndexVideo.sdks) = [1; 1; 1; 1; 1; 1] /\
  map (fun c => existsb is_video_block (media_blocks c))
      (PagesIndexVideo.cards PagesIndexVideo.sdks) =
  [false; false; true; false; false; false] /\
  map (fun c => length (media_blocks c))
      (PagesIndex.cards PagesIndex.sdks) = [1; 0; 0; 0; 0; 0].
Proof. repeat split. Qed.

(** C6. In both revisions of the page, a descriptor list of length N gives
    N cards, and the card at position i is produced from the descriptor at
    position i: it is the callback applied to that descriptor and to i, its
    key is i, its heading, description and link are the descriptor's title,
    description and link, and its media blocks are those of the
    descriptor's media fields.  The order is kept, and a card depends on
    nothing but its own descriptor and position. *)
Theorem cards_follow_the_descriptors (descriptors : list SDK) :
  (length (PagesIndex.cards descriptors) = length descriptors /\
   forall i : nat,
     nth_error (PagesIndex.cards descriptors) i =
       option_map (fun sdk => PagesIndex.card sdk i)
                  (nth_error descriptors i) /\
     option_map
       (fun c => (element_key c, card_heading c, card_description c,
                  card_link c, media_blocks c))
       (nth_error (PagesIndex.cards descriptors) i) =
     option_map
       (fun sdk => (Some i, Some (title sdk), Some (description sdk),
                    Some (PString (link sdk)),
                    if field_set (image sdk) then [image_block sdk] else []))
       (nth_error descriptors i)) /\
  (length (PagesIndexVideo.cards descriptors) = length descriptors /\
   forall i : nat,
     nth_error (PagesIndexVideo.cards descriptors) i =
       option_map (fun sdk => PagesIndexVideo.card sdk i)
                  (nth_error descriptors i) /\
     option_map
       (fun c => (element_key c, card_heading c, card_description c,
                  card_link c, media_blocks c))
       (nth_error (PagesIndexVideo.cards descriptors) i) =
     option_map
       (fun sdk => (Some i, Some (title sdk), Some (description sdk),
                    Some (PString (link sdk)),
                    (if field_set (image sdk) then [image_block sdk] else [])
                    ++
                    (if field_set (video sdk) then [video_block sdk] else [])))
       (nth_error descriptors i)).
Proof.
  unfold PagesIndex.cards, PagesIndexVideo.cards.
  split; (split; [apply array_map_length|]); intros i;
    rewrite array_map_nth_error; (split; [reflexivity|]);
    destruct (nth_error descriptors i) as [sdk|]; cbn [option_map];
    try reflexivity; f_equal.
  - unfold PagesIndex.card.
    destruct (column_reads_back sdk i (image_block sdk)
                (placeholder_block sdk)) as (K & H & D & L).
    { intros c Hc.
      destruct (conditional_blocks_not_fixed sdk c Hc) as (A & _ & C).
      now split. }
    rewrite K, H, D, L, column_media_blocks. cbn [filter].
    destruct (image_block_media sdk) as (-> & _).
    rewrite placeholder_block_media.
    now destruct (field_set (image sdk)).
  - unfold PagesIndexVideo.card.
    destruct (column_reads_back sdk i (image_block sdk)
                (video_block sdk)) as (K & H & D & L).
    { intros c Hc.
      destruct (conditional_blocks_not_fixed sdk c Hc) as (A & B & _).
      now split. }
    rewrite K, H, D, L, column_media_blocks. cbn [filter].
    destruct (image_block_media sdk) as (-> & _).
    destruct (video_block_media sdk) as (-> & _).
    now destruct (field_set (image sdk)), (field_set (video sdk)).
Qed.

(** C7. A descriptor with neither [image] nor [video] set (the field is
    missing, or holds the empty string) gives, in both revisions, a card
    with no media block that still carries its key, its heading (the
    title), its description and its link. *)
Theorem card_without_media_fields (sdk : SDK) (idx : nat) :
  field_set (image sdk) = false ->
  field_set (video sdk) = false ->
  (media_blocks (PagesIndex.card sdk idx) = [] /\
   card_heading (PagesIndex.card sdk idx) = Some (title sdk) /\
   card_description (PagesIndex.card sdk idx) = Some (description sdk) /\
   card_link (PagesIndex.card sdk idx) = Some (PString (link sdk))) /\
  (media_blocks (PagesIndexVideo.card sdk idx) = [] /\
   card_heading (PagesIndexVideo.card sdk idx) = Some (title sdk) /\
   card_description (PagesIndexVideo.card sdk idx) = Some (description sdk) /\
   card_link (PagesIndexVideo.card sdk idx) = Some (PString (link sdk))).
Proof.
  intros Hi Hv.
  unfold PagesIndex.card, PagesIndexVideo.card.
  rewrite !column_media_blocks. cbn [filter].
  destruct (image_block_media sdk) as (-> & _).
  destruct (video_block_media sdk) as (-> & _).
  rewrite placeholder_block_media, Hi, Hv.
  split; (split; [reflexivity|]).
  - apply column_reads_back. intros c Hc.
    destruct (conditional_blocks_not_fixed sdk c Hc) as (A & _ & C).
    now split.
  - apply column_reads_back. intros c Hc.
    destruct (conditional_blocks_not_fixed sdk c Hc) as (A & B & _).
    now split.
Qed.

Lemma card_without_media_fields_witness :
  (field_set (image PagesIndexVideo.sdk_without_media) = false /\
   field_set (video PagesIndexVideo.sdk_without_media) = false) /\
  media_blocks (PagesIndexVideo.card PagesIndexVideo.sdk_without_media 4) = [] /\
  card_heading (PagesIndexVideo.card PagesIndexVideo.sdk_without_media 4) =
  Some "Video SDK".
Proof.
  split; [split; reflexivity|].
  destruct (card_without_media_fields PagesIndexVideo.sdk_without_media 4
              eq_refl eq_refl) as (_ & M & H & _).
  split; [exact M | exact H].
Defined.

(** C10. The two media branches are independent: a descriptor with both
    [image] and [video] set (each test [sdk.image && ...], [sdk.video && ...]
    passes) gives a card with two media blocks, the image block followed by
    the video block. *)
Theorem both_media_fields_give_two_blocks (sdk : SDK) (idx : nat) :
  field_set (image sdk) = true ->
  field_set (video sdk) = true ->
  media_blocks (PagesIndexVideo.card sdk idx) =
    [image_block sdk; video_block sdk] /\
  is_image_block (image_block sdk) = true /\
  is_video_block (video_block sdk) = true.
Proof.
  intros Hi Hv.
  unfold PagesIndexVideo.card. rewrite column_media_blocks. cbn [filter].
  destruct (image_block_media sdk) as (-> & -> & _).
  destruct (video_block_media sdk) as (-> & -> & _).
  now rewrite Hi, Hv.
Qed.

Lemma both_media_fields_give_two_blocks_witness :
  (field_set (image PagesIndexVideo.sdk_with_both) = true /\
   field_set (video PagesIndexVideo.sdk_with_both) = true) /\
  length (media_blocks
            (PagesIndexVideo.card PagesIndexVideo.sdk_with_both 2)) = 2.
Proof.
  split; [split; reflexivity|].
  destruct (both_media_fields_give_two_blocks PagesIndexVideo.sdk_with_both 2
              eq_refl eq_refl) as (M & _).
  now rewrite M.
Defined.

End SDKGridProperties.

(* ================================================================= *)
(** * The sidebar tree *)

Module SidebarFacts.
Import Sidebars.

(** The tree has 45 leaves; 11 of them name a document of
    [named_documents].  Whether the others resolve depends on the rest of
    the corpus. *)
Example leaves_with_a_known_document :
  length all_leaf_ids = 45 /\
  filter (resolves_in named_documents) all_leaf_ids =
  [ "actions-sdk/index"; "actions-sdk/overview";
    "actions-sdk/getting-started"; "actions-sdk/installation";
    "actions-sdk/authentication"; "actions-sdk/core-concepts/objects";
    "actions-sdk/api-reference"; "actions-sdk/guides/payment-intents";
    "actions-sdk/guides/save-cards"; "actions-sdk/release-notes";
    "actions-sdk/faq" ].
Proof. split; reflexivity. Qed.

End SidebarFacts.

(* ================================================================= *)
(** * The route-conditional class: further properties *)

Module NavMore.
Import DOM Hooks ConditionalNav NavSpec NavOrder DOMFacts NavFacts.

Lemma Ok_inj {A : Type} (a b : A) : Ok a = Ok b -> a = b.
Proof. congruence. Qed.

Lemma classList_updated {Rest : Type} (l : DOMTokenList) (b : HTMLElement)
  (d : Document Rest) :
  classList (body (with_body (with_classList l b) d)) = l.
Proof. reflexivity. Qed.

(** Properties that each of the two DOM calls keeps are kept by every
    render, run and unmount. *)
Section Preservation.
Variable Rest : Type.
Variable P : Document Rest -> Prop.
Hypothesis P_add :
  forall d d', P d -> body_classList_add marker d = Ok d' -> P d'.
Hypothesis P_remove :
  forall d d', P d -> body_classList_remove marker d = Ok d' -> P d'.

Lemma effect_body_preserves (loc : Location) (d d' : Document Rest) :
  P d -> effect_body loc d = Ok d' -> P d'.
Proof.
  unfold effect_body.
  destruct (JSString.includes (pathname loc) actions_sdk_prefix); eauto.
Qed.

Lemma render_preserves (loc : Location) (st st' : Instance Rest) :
  well_formed st -> P (fst st) -> render loc st = Ok st' -> P (fst st').
Proof.
  destruct st as [d [h|]]; intros [W|W] HP; try discriminate.
  - destruct W as (p & h' & [= <-] & Hd & Hc & _). dom_simpl.
    unfold render, commitUpdate; dom_simpl. rewrite Hd; dom_simpl.
    destruct (String.eqb_spec (pathname loc) p) as [->|N]; dom_simpl.
    + now intros [= <-].
    + rewrite Hc. unfold cleanup.
      destruct (body_classList_remove marker d) as [d1|] eqn:E1;
        dom_simpl; [|discriminate].
      destruct (effect_body loc d1) as [d2|] eqn:E2;
        dom_simpl; [|discriminate].
      intros [= <-]. dom_simpl.
      eapply effect_body_preserves; [|exact E2]. eauto.
  - unfold render, commitMount; dom_simpl.
    destruct (effect_body loc d) as [d2|] eqn:E2; dom_simpl; [|discriminate].
    intros [= <-]. dom_simpl. eapply effect_body_preserves; eauto.
  - destruct W as (p & h' & E & _). discriminate.
Qed.

Lemma navigate_preserves (locs : list Location) (st st' : Instance Rest) :
  well_formed st -> P (fst st) -> navigate locs st = Ok st' -> P (fst st').
Proof.
  revert st. induction locs as [|loc locs IH]; intros st W HP; dom_simpl.
  - now intros [= <-].
  - destruct (render_settles Rest loc st W) as (st1 & E1 & S1 & _).
    rewrite E1; dom_simpl.
    apply IH; [now apply settled_well_formed with (pathname loc)|].
    now apply (render_preserves loc st).
Qed.

Lemma unmount_preserves (st st' : Instance Rest) :
  well_formed st -> P (fst st) -> unmount st = Ok st' -> P (fst st').
Proof.
  destruct st as [d [h|]]; intros [W|W] HP; try discriminate.
  - destruct W as (p & h' & [= <-] & _ & Hc & _).
    unfold unmount, commitUnmount; dom_simpl. rewrite Hc. unfold cleanup.
    destruct (body_classList_remove marker d) as [d1|] eqn:E1;
      dom_simpl; [|discriminate].
    intros [= <-]. dom_simpl. eauto.
  - now intros [= <-].
  - destruct W as (p & h' & E & _). discriminate.
Qed.

End Preservation.

Section Kept.
Variable Rest : Type.

Lemma NoDup_add (d d' : Document Rest) :
  NoDup (classList (body d)) ->
  body_classList_add marker d = Ok d' -> NoDup (classList (body d')).
Proof.
  intros N. rewrite add_marker_eq. intros E; apply Ok_inj in E; subst d'.
  rewrite classList_updated.
  eapply add_NoDup; [exact N | apply (add_valid _ _ validate_marker)].
Qed.

Lemma NoDup_remove (d d' : Document Rest) :
  NoDup (classList (body d)) ->
  body_classList_remove marker d = Ok d' -> NoDup (classList (body d')).
Proof.
  intros N. rewrite remove_marker_eq. intros E; apply Ok_inj in E; subst d'.
  rewrite classList_updated. now apply NoDup_filter.
Qed.

Lemma appended_add (l0 : DOMTokenList) (d d' : Document Rest) :
  ~ In marker l0 ->
  marker_appended_at_most l0 d ->
  body_classList_add marker d = Ok d' -> marker_appended_at_most l0 d'.
Proof.
  intros N H. rewrite add_marker_eq. intros E; apply Ok_inj in E; subst d'.
  unfold marker_appended_at_most in *. rewrite classList_updated. right.
  destruct H as [-> | ->].
  - destruct (contains marker l0) eqn:E; [|reflexivity].
    apply contains_In in E. contradiction.
  - assert (E : contains marker (l0 ++ [marker]) = true).
    { apply contains_In, in_or_app. right. now left. }
    now rewrite E.
Qed.

Lemma appended_remove (l0 : DOMTokenList) (d d' : Document Rest) :
  ~ In marker l0 ->
  marker_appended_at_most l0 d ->
  body_classList_remove marker d = Ok d' -> marker_appended_at_most l0 d'.
Proof.
  intros N H. rewrite remove_marker_eq. intros E; apply Ok_inj in E; subst d'.
  unfold marker_appended_at_most in *.
  rewrite classList_updated. left.
  destruct H as [-> | ->].
  - now apply without_absent.
  - rewrite without_snoc. now apply without_absent.
Qed.

End Kept.

End NavMore.

Section RouteConditionalClassMore.
Import DOM Hooks React ConditionalNav NavSpec NavOrder DOMFacts NavFacts NavMore.

(** X1. A navigation that keeps the pathname (only the query string or the
    hash changes) runs neither the cleanup nor the effect: the instance,
    document and hook, is the one the previous render left. *)
Theorem same_pathname_navigation_changes_nothing
  (Rest : Type) (document : Document Rest)
  (earlier : list Location) (previous next : Location) :
  pathname next = pathname previous ->
  exists st,
    navigate (earlier ++ [previous]) (fresh document) = Ok st /\
    navigate (earlier ++ [previous; next]) (fresh document) = Ok st.
Proof.
  intros H.
  destruct (navigate_settles Rest earlier previous (fresh document)
              (fresh_well_formed Rest document)) as (st & E & S & _).
  exists st. split; [exact E|].
  change [previous; next] with ([previous] ++ [next]).
  rewrite app_assoc, (navigate_app Rest (earlier ++ [previous])), E.
  cbn [bind navigate].
  rewrite <- H in S. now rewrite (render_same_path Rest next st S).
Qed.

Lemma same_pathname_navigation_changes_nothing_witness :
  pathname {| pathname := "/LogiDoc/docs/actions-sdk/installation";
              search := ""; hash := "#windows" |} =
  pathname (at_path "/LogiDoc/docs/actions-sdk/installation") /\
  exists st,
    navigate ([] ++ [at_path "/LogiDoc/docs/actions-sdk/installation"])
             (fresh sample_document) = Ok st /\
    navigate ([] ++ [at_path "/LogiDoc/docs/actions-sdk/installation";
                     {| pathname := "/LogiDoc/docs/actions-sdk/installation";
                        search := ""; hash := "#windows" |}])
             (fresh sample_document) = Ok st.
Proof.
  split.
  - reflexivity.
  - apply (same_pathname_navigation_changes_nothing unit sample_document []
             (at_path "/LogiDoc/docs/actions-sdk/installation")
             {| pathname := "/LogiDoc/docs/actions-sdk/installation";
                search := ""; hash := "#windows" |}).
    reflexivity.
Defined.

(** X2. A body class list without duplicates stays without duplicates
    through every run of renders and through the unmount. *)
Theorem class_list_stays_duplicate_free
  (Rest : Type) (document : Document Rest) (locations : list Location) :
  NoDup (classList (body document)) ->
  exists st st',
    navigate locations (fresh document) = Ok st /\
    unmount st = Ok st' /\
    NoDup (classList (body (fst st))) /\
    NoDup (classList (body (fst st'))).
Proof.
  intros N.
  destruct (navigate_well_formed Rest locations (fresh document)
              (fresh_well_formed Rest document)) as (st & E & W & _).
  destruct (unmount_well_formed Rest st W) as (st' & E' & _).
  assert (N1 : NoDup (classList (body (fst st)))).
  { apply (navigate_preserves Rest (fun d => NoDup (classList (body d)))
             (NoDup_add Rest) (NoDup_remove Rest)
             locations (fresh document) st);
      [apply fresh_well_formed | exact N | exact E]. }
  exists st, st'. repeat (split; [assumption|]).
  apply (unmount_preserves Rest (fun d => NoDup (classList (body d)))
           (NoDup_remove Rest) st st'); assumption.
Qed.

Lemma class_list_stays_duplicate_free_witness :
  NoDup (classList (body sample_document)) /\
  exists st st',
    navigate [at_path "/LogiDoc/docs/actions-sdk/overview";
              at_path "/LogiDoc/docs/actions-sdk/faq"]
             (fresh sample_document) = Ok st /\
    unmount st = Ok st' /\
    NoDup (classList (body (fst st))) /\
    NoDup (classList (body (fst st'))).
Proof.
  assert (N : NoDup (classList (body sample_document))).
  { repeat constructor. intros []. }
  split; [exact N|].
  apply (class_list_stays_duplicate_free unit sample_document
           [at_path "/LogiDoc/docs/actions-sdk/overview";
            at_path "/LogiDoc/docs/actions-sdk/faq"] N).
Defined.

(** X3. When the page loads without the marker among the body's classes,
    the body's class list after any run is known exactly: ending on a
    matching path it is the load-time list with the marker appended, and
    ending on any other path it is the load-time list. *)
Theorem class_list_after_run_from_clean_page
  (Rest : Type) (document : Document Rest)
  (earlier : list Location) (location : Location) :
  ~ In marker (classList (body document)) ->
  exists st,
    navigate (earlier ++ [location]) (fresh document) = Ok st /\
    classList (body (fst st)) =
    if JSString.includes (pathname location) actions_sdk_prefix
    then classList (body document) ++ [marker]
    else classList (body document).
Proof.
  intros N.
  destruct (navigate_settles Rest earlier location (fresh document)
              (fresh_well_formed Rest document)) as (st & E & S & _).
  exists st. split; [exact E|].
  assert (A : marker_appended_at_most (classList (body document)) (fst st)).
  { apply (navigate_preserves Rest
             (marker_appended_at_most (classList (body document)))
             (fun d d' => appended_add Rest _ d d' N)
             (fun d d' => appended_remove Rest _ d d' N)
             (earlier ++ [location]) (fresh document) st);
      [apply fresh_well_formed | now left | exact E]. }
  destruct S as (hook & _ & _ & _ & Hm).
  unfold body_has_class in Hm.
  destruct (JSString.includes (pathname location) actions_sdk_prefix).
  - destruct A as [A|A]; [|exact A].
    exfalso. apply N. rewrite <- A. now apply Hm.
  - destruct A as [A|A]; [exact A|].
    exfalso. assert (X : In marker (classList (body (fst st)))).
    { rewrite A. apply in_or_app. right. now left. }
    apply Hm in X. discriminate.
Qed.

Lemma class_list_after_run_from_clean_page_witness :
  ~ In marker (classList (body sample_document)) /\
  exists st,
    navigate ([at_path "/LogiDoc/"] ++
              [at_path "/LogiDoc/docs/actions-sdk/overview"])
             (fresh sample_document) = Ok st /\
    classList (body (fst st)) = ["navigation-with-keyboard"; marker].
Proof.
  assert (N : ~ In marker (classList (body sample_document))).
  { intros [H|[]]. discriminate H. }
  split; [exact N|].
  destruct (class_list_after_run_from_clean_page unit sample_document
              [at_path "/LogiDoc/"]
              (at_path "/LogiDoc/docs/actions-sdk/overview") N)
    as (st & E & C).
  exists st. split; [exact E | exact C].
Defined.

(** X4. When the page loads without the marker among the body's classes,
    unmounting after any run returns, the hook is gone, and the body's
    class list is the load-time list again. *)
Theorem unmount_restores_class_list
  (Rest : Type) (document : Document Rest) (locations : list Location) :
  ~ In marker (classList (body document)) ->
  exists st st',
    navigate locations (fresh document) = Ok st /\
    unmount st = Ok st' /\
    snd st' = None /\
    classList (body (fst st')) = classList (body document).
Proof.
  intros N.
  destruct (navigate_well_formed Rest locations (fresh document)
              (fresh_well_formed Rest document)) as (st & E & W & _).
  destruct (unmount_well_formed Rest st W) as (st' & E' & N' & _ & H').
  exists st, st'. repeat (split; [assumption|]).
  assert (A : marker_appended_at_most (classList (body document)) (fst st)).
  { apply (navigate_preserves Rest
             (marker_appended_at_most (classList (body document)))
             (fun d d' => appended_add Rest _ d d' N)
             (fun d d' => appended_remove Rest _ d d' N)
             locations (fresh document) st);
      [apply fresh_well_formed | now left | exact E]. }
  assert (A' : marker_appended_at_most (classList (body document)) (fst st')).
  { apply (unmount_preserves Rest
             (marker_appended_at_most (classList (body document)))
             (fun d d' => appended_remove Rest _ d d' N) st st'); assumption. }
  destruct A' as [A'|A']; [exact A'|]. exfalso.
  assert (X : In marker (classList (body (fst st')))).
  { rewrite A'. apply in_or_app. right. now left. }
  destruct locations as [|loc locs].
  - cbn in E. apply Ok_inj in E. subst st.
    cbn in E'. apply Ok_inj in E'. subst st'. now apply N.
  - destruct (navigate_settles Rest (removelast (loc :: locs))
                (last (loc :: locs) loc) (fresh document)
                (fresh_well_formed Rest document)) as (st2 & E2 & S2 & _).
    rewrite <- app_removelast_last in E2 by discriminate.
    rewrite E in E2. apply Ok_inj in E2. subst st2.
    destruct S2 as (hook & Hh & _).
    apply H'; [rewrite Hh; discriminate | exact X].
Qed.

Lemma unmount_restores_class_list_witness :
  ~ In marker (classList (body sample_document)) /\
  exists st st',
    navigate [at_path "/LogiDoc/docs/actions-sdk/overview"]
             (fresh sample_document) = Ok st /\
    unmount st = Ok st' /\
    snd st' = None /\
    classList (body (fst st')) = ["navigation-with-keyboard"].
Proof.
  assert (N : ~ In marker (classList (body sample_document))).
  { intros [H|[]]. discriminate H. }
  split; [exact N|].
  apply (unmount_restores_class_list unit sample_document
           [at_path "/LogiDoc/docs/actions-sdk/overview"] N).
Defined.

End RouteConditionalClassMore.

Section MarkerPosition.
Import DOM Hooks React ConditionalNav NavSpec NavOrder DOMFacts NavFacts NavMore.

Lemma contains_without (t : string) (l : DOMTokenList) :
  contains t (filter (fun c => negb (String.eqb t c)) l) = false.
Proof.
  destruct (contains t (filter (fun c => negb (String.eqb t c)) l)) eqn:E;
    [|reflexivity].
  apply contains_In in E. now apply not_In_without in E.
Qed.

(** X5. Going from one path to a different one that matches runs the
    cleanup and then the effect: whatever the body's classes were at page
    load, the marker ends up exactly once, last, after the other classes in
    their original order. *)
Theorem marker_is_reappended_last
  (Rest : Type) (document : Document Rest)
  (earlier : list Location) (previous next : Location) :
  pathname next <> pathname previous ->
  JSString.includes (pathname next) actions_sdk_prefix = true ->
  exists st,
    navigate (earlier ++ [previous; next]) (fresh document) = Ok st /\
    classList (body (fst st)) =
    filter (fun c => negb (String.eqb marker c)) (classList (body document))
    ++ [marker].
Proof.
  intros Hp Hi.
  destruct (navigate_settles Rest earlier previous (fresh document)
              (fresh_well_formed Rest document)) as (st1 & E1 & S1 & F1).
  change [previous; next] with ([previous] ++ [next]).
  rewrite app_assoc, (navigate_app Rest (earlier ++ [previous])), E1.
  cbn [bind navigate].
  destruct st1 as [d1 s1]. destruct S1 as (hook & Hs & Hd & Hc & _).
  cbn [fst snd] in *. subst s1.
  unfold render, commitUpdate. cbn [fst snd deps ConditionalNavScript].
  rewrite Hd. cbn [areHookInputsEqual].
  destruct (String.eqb_spec (pathname next) (pathname previous)) as [X|_];
    [contradiction|].
  cbn [andb]. rewrite Hc. unfold cleanup. rewrite remove_marker_eq.
  cbn [bind create]. unfold effect_body. rewrite Hi, add_marker_eq.
  cbn [bind fst snd]. eexists. split; [reflexivity|].
  cbn [fst]. rewrite !classList_updated, contains_without.
  destruct F1 as (_ & _ & _ & F1). now rewrite F1.
Qed.

Lemma marker_is_reappended_last_witness :
  (pathname (at_path "/LogiDoc/docs/actions-sdk/faq") <>
   pathname (at_path "/LogiDoc/docs/actions-sdk/overview") /\
   JSString.includes (pathname (at_path "/LogiDoc/docs/actions-sdk/faq"))
     actions_sdk_prefix = true) /\
  exists st,
    navigate ([] ++ [at_path "/LogiDoc/docs/actions-sdk/overview";
                     at_path "/LogiDoc/docs/actions-sdk/faq"])
             (fresh sample_document) = Ok st /\
    classList (body (fst st)) = ["navigation-with-keyboard"; marker].
Proof.
  assert (Hp : pathname (at_path "/LogiDoc/docs/actions-sdk/faq") <>
               pathname (at_path "/LogiDoc/docs/actions-sdk/overview")).
  { discriminate. }
  split; [split; [exact Hp | reflexivity]|].
  destruct (marker_is_reappended_last unit sample_document []
              (at_path "/LogiDoc/docs/actions-sdk/overview")
              (at_path "/LogiDoc/docs/actions-sdk/faq") Hp eq_refl)
    as (st & E & C).
  exists st. split; [exact E | exact C].
Defined.

End MarkerPosition.

(* ================================================================= *)
(** * The page: further properties *)

Module TreeFacts.
Import React ReactDOM SDKCards CardFacts.

Lemma elements_of_type_element (t ty : string) (k : option nat)
  (ps : list (string * PropValue)) (cs : list ReactNode) :
  elements_of_type t (RElement ty k ps cs) =
  (if String.eqb ty t then [RElement ty k ps cs] else []) ++
  flat_map (elements_of_type t) cs.
Proof.
  cbn [elements_of_type]. f_equal.
Qed.

Lemma map_flat_map {A B C : Type} (f : B -> C) (g : A -> list B) (l : list A) :
  map f (flat_map g l) = flat_map (fun x => map f (g x)) l.
Proof.
  induction l as [|x l IH]; cbn [flat_map map]; [reflexivity|].
  now rewrite map_app, IH.
Qed.

Lemma flat_map_singleton {A B : Type} (h : A -> B) (l : list A) :
  flat_map (fun x => [h x]) l = map h l.
Proof.
  induction l as [|x l IH]; cbn [flat_map map app]; [reflexivity|].
  now rewrite IH.
Qed.

(** Collecting over the cards is collecting over the descriptors. *)
Lemma flat_map_map_from {A B C : Type} (f : A -> nat -> B)
  (F : B -> list C) (g : A -> list C) :
  (forall x i, F (f x i) = g x) ->
  forall l k, flat_map F (map_from f k l) = flat_map g l.
Proof.
  intros H l. induction l as [|x l IH]; intros k; cbn [map_from flat_map].
  - reflexivity.
  - now rewrite H, IH.
Qed.

Lemma flat_map_array_map {A B C : Type} (f : A -> nat -> B)
  (F : B -> list C) (g : A -> list C) :
  (forall x i, F (f x i) = g x) ->
  forall l, flat_map F (array_map f l) = flat_map g l.
Proof.
  intros H l. apply (flat_map_map_from f F g H l 0).
Qed.

(** The elements of the grid other than its own are those of the cards. *)
Lemma grid_section_elements (t : string) (cs : list ReactNode) :
  String.eqb "section" t = false ->
  String.eqb "div" t = false ->
  elements_of_type t (grid_section cs) =
  (if String.eqb "Heading" t
   then [RElement "Heading" None
           [("as", PString "h2");
            ("className", PString "text--center margin-bottom--lg")]
           [RText "Choose Your SDK"]]
   else []) ++
  flat_map (elements_of_type t) cs.
Proof.
  intros Hs Hd. unfold grid_section.
  repeat (rewrite elements_of_type_element; cbn [flat_map]).
  cbn [elements_of_type]. rewrite Hs, !Hd. cbn [app].
  rewrite !app_nil_r. reflexivity.
Qed.

Lemma map_from_keys {A : Type} (f : A -> nat -> ReactNode) :
  (forall x i, element_key (f x i) = Some i) ->
  forall l k, map element_key (map_from f k l) = map Some (seq k (length l)).
Proof.
  intros H l. induction l as [|x l IH]; intros k; cbn [map_from map seq length].
  - reflexivity.
  - now rewrite H, IH.
Qed.

End TreeFacts.

Module CardTreeFacts.
Import React ReactDOM SDKCards CardFacts TreeFacts.

(** All the ways the three optional fields can be: missing, empty, set. *)
Ltac by_fields sdk :=
  unfold PagesIndex.card, PagesIndexVideo.card, column,
    image_block, video_block, placeholder_block, and_then, set_value;
  destruct (image sdk) as [[|? ?]|], (video sdk) as [[|? ?]|],
           (placeholder sdk) as [[|? ?]|];
  cbn; rewrite ?JSStringFacts.append_empty_r; reflexivity.

Lemma card_links (sdk : SDK) (idx : nat) :
  links_of (PagesIndex.card sdk idx) = [Some (PString (link sdk))] /\
  links_of (PagesIndexVideo.card sdk idx) = [Some (PString (link sdk))].
Proof. unfold links_of. split; by_fields sdk. Qed.

Lemma card_images (sdk : SDK) (idx : nat) :
  images_of (PagesIndex.card sdk idx) =
    map (fun src => (Some (PString src), Some (PString (title sdk))))
        (set_value (image sdk)) /\
  images_of (PagesIndexVideo.card sdk idx) =
    map (fun src => (Some (PString src), Some (PString (title sdk))))
        (set_value (image sdk)).
Proof. unfold images_of. split; by_fields sdk. Qed.

Lemma card_videos (sdk : SDK) (idx : nat) :
  videos_of (PagesIndex.card sdk idx) = [] /\
  videos_of (PagesIndexVideo.card sdk idx) =
    map (fun src => (Some (PString src), Some PTrue, Some PTrue))
        (set_value (video sdk)).
Proof. unfold videos_of. split; by_fields sdk. Qed.

Lemma card_headings (sdk : SDK) (idx : nat) :
  headings (PagesIndex.card sdk idx) = [(Some (PString "h3"), title sdk)] /\
  headings (PagesIndexVideo.card sdk idx) = [(Some (PString "h3"), title sdk)].
Proof. unfold headings. split; by_fields sdk. Qed.

Lemma card_key (sdk : SDK) (idx : nat) :
  element_key (PagesIndex.card sdk idx) = Some idx /\
  element_key (PagesIndexVideo.card sdk idx) = Some idx.
Proof. split; reflexivity. Qed.

End CardTreeFacts.

Section PageProperties.
Import React ReactDOM SDKCards CardFacts TreeFacts CardTreeFacts HomePage.
Import Hooks ConditionalNav ThemeRoot.

Lemma NoDup_map_Some {A : Type} (l : list A) :
  NoDup l -> NoDup (map Some l).
Proof.
  induction 1 as [|x l Hx _ IH]; cbn [map]; constructor; [|exact IH].
  intros H. apply in_map_iff in H as (y & [= ->] & Hy). contradiction.
Qed.

(** X6. In both revisions the keys of the cards are their positions
    0, 1, ..., N-1, so no two cards of a grid share a key, whatever the
    descriptors (equal descriptors included). *)
Theorem card_keys_are_positions (descriptors : list SDK) :
  (map element_key (PagesIndex.cards descriptors) =
     map Some (seq 0 (length descriptors)) /\
   NoDup (map element_key (PagesIndex.cards descriptors))) /\
  (map element_key (PagesIndexVideo.cards descriptors) =
     map Some (seq 0 (length descriptors)) /\
   NoDup (map element_key (PagesIndexVideo.cards descriptors))).
Proof.
  assert (K1 : map element_key (PagesIndex.cards descriptors) =
               map Some (seq 0 (length descriptors))).
  { apply (map_from_keys PagesIndex.card); intros; apply card_key. }
  assert (K2 : map element_key (PagesIndexVideo.cards descriptors) =
               map Some (seq 0 (length descriptors))).
  { apply (map_from_keys PagesIndexVideo.card); intros; apply card_key. }
  split; (split; [assumption|]).
  - rewrite K1. apply NoDup_map_Some, seq_NoDup.
  - rewrite K2. apply NoDup_map_Some, seq_NoDup.
Qed.

(** X7. In both revisions every card, whatever media fields its descriptor
    has, carries the descriptor's title as heading, its description and its
    link: a media or placeholder block never takes the place of the header,
    the body or the footer. *)
Theorem every_card_reads_back (sdk : SDK) (idx : nat) :
  (card_heading (PagesIndex.card sdk idx) = Some (title sdk) /\
   card_description (PagesIndex.card sdk idx) = Some (description sdk) /\
   card_link (PagesIndex.card sdk idx) = Some (PString (link sdk))) /\
  (card_heading (PagesIndexVideo.card sdk idx) = Some (title sdk) /\
   card_description (PagesIndexVideo.card sdk idx) = Some (description sdk) /\
   card_link (PagesIndexVideo.card sdk idx) = Some (PString (link sdk))).
Proof.
  split.
  - apply (column_reads_back sdk idx (image_block sdk) (placeholder_block sdk)).
    intros c Hc.
    destruct (conditional_blocks_not_fixed sdk c Hc) as (A & _ & C).
    now split.
  - apply (column_reads_back sdk idx (image_block sdk) (video_block sdk)).
    intros c Hc.
    destruct (conditional_blocks_not_fixed sdk c Hc) as (A & B & _).
    now split.
Qed.

(** X8. The blocks above the header are decided field by field, each by
    its own test, and a field holding the empty string counts as not set:
    the [card__image] blocks of a card are the image block if [image] is
    set, then (in the revision with videos) the video block if [video] is
    set; in the revision with placeholders the [card__placeholder] block is
    there exactly when [placeholder] is set. *)
Theorem blocks_are_decided_field_by_field (sdk : SDK) (idx : nat) :
  media_blocks (PagesIndexVideo.card sdk idx) =
    (if field_set (image sdk) then [image_block sdk] else []) ++
    (if field_set (video sdk) then [video_block sdk] else []) /\
  media_blocks (PagesIndex.card sdk idx) =
    (if field_set (image sdk) then [image_block sdk] else []) /\
  filter (has_className "card__placeholder")
         (card_children (PagesIndex.card sdk idx)) =
    (if field_set (placeholder sdk) then [placeholder_block sdk] else []).
Proof.
  unfold PagesIndexVideo.card, PagesIndex.card.
  rewrite !column_media_blocks. cbn [filter].
  destruct (image_block_media sdk) as (-> & _).
  destruct (video_block_media sdk) as (-> & _).
  rewrite placeholder_block_media.
  split; [|split].
  - now destruct (field_set (image sdk)), (field_set (video sdk)).
  - now destruct (field_set (image sdk)).
  - unfold column, card_children, image_block, placeholder_block, and_then,
      field_set.
    destruct (image sdk) as [[|? ?]|], (placeholder sdk) as [[|? ?]|];
      reflexivity.
Qed.

(** X9. The links of the rendered grid, in document order, are the links
    of the descriptors in their order: one per descriptor, none from a
    media or placeholder block. *)
Theorem grid_links_follow_the_descriptors (descriptors : list SDK) :
  links_of (grid_section (PagesIndex.cards descriptors)) =
    map (fun sdk => Some (PString (link sdk))) descriptors /\
  links_of (grid_section (PagesIndexVideo.cards descriptors)) =
    map (fun sdk => Some (PString (link sdk))) descriptors.
Proof.
  unfold links_of, PagesIndex.cards, PagesIndexVideo.cards.
  rewrite !grid_section_elements by reflexivity.
  cbn [String.eqb Ascii.eqb Bool.eqb app].
  rewrite !map_flat_map.
  split.
  - rewrite (flat_map_array_map PagesIndex.card _
               (fun sdk => [Some (PString (link sdk))])).
    + apply flat_map_singleton.
    + intros sdk i. apply (card_links sdk i).
  - rewrite (flat_map_array_map PagesIndexVideo.card _
               (fun sdk => [Some (PString (link sdk))])).
    + apply flat_map_singleton.
    + intros sdk i. apply (card_links sdk i).
Qed.

(** X10. The images of the rendered grid, in document order, are those of
    the descriptors whose [image] is set, and each has its card's title as
    alternative text. *)
Theorem grid_images_carry_the_title (descriptors : list SDK) :
  images_of (grid_section (PagesIndex.cards descriptors)) =
    flat_map
      (fun sdk =>
         map (fun src => (Some (PString src), Some (PString (title sdk))))
             (set_value (image sdk)))
      descriptors /\
  images_of (grid_section (PagesIndexVideo.cards descriptors)) =
    flat_map
      (fun sdk =>
         map (fun src => (Some (PString src), Some (PString (title sdk))))
             (set_value (image sdk)))
      descriptors.
Proof.
  unfold images_of, PagesIndex.cards, PagesIndexVideo.cards.
  rewrite !grid_section_elements by reflexivity.
  cbn [String.eqb Ascii.eqb Bool.eqb app].
  rewrite !map_flat_map.
  split.
  - apply (flat_map_array_map PagesIndex.card).
    intros sdk i. apply (card_images sdk i).
  - apply (flat_map_array_map PagesIndexVideo.card).
    intros sdk i. apply (card_images sdk i).
Qed.

(** X11. In the revision with videos, the videos of the rendered grid are
    those of the descriptors whose [video] is set, in order, and each is
    set to play automatically and muted; the revision with placeholders
    renders no video. *)
Theorem grid_videos_autoplay_muted (descriptors : list SDK) :
  videos_of (grid_section (PagesIndexVideo.cards descriptors)) =
    flat_map
      (fun sdk =>
         map (fun src => (Some (PString src), Some PTrue, Some PTrue))
             (set_value (video sdk)))
      descriptors /\
  videos_of (grid_section (PagesIndex.cards descriptors)) = [].
Proof.
  unfold videos_of, PagesIndex.cards, PagesIndexVideo.cards.
  rewrite !grid_section_elements by reflexivity.
  cbn [String.eqb Ascii.eqb Bool.eqb app].
  rewrite !map_flat_map.
  split.
  - apply (flat_map_array_map PagesIndexVideo.card).
    intros sdk i. apply (card_videos sdk i).
  - rewrite (flat_map_array_map PagesIndex.card _ (fun _ => [])).
    + induction descriptors as [|x l IH]; [reflexivity | exact IH].
    + intros sdk i. apply (card_videos sdk i).
Qed.

End PageProperties.

Section PageOutline.
Import React ReactDOM SDKCards CardFacts TreeFacts CardTreeFacts HomePage.
Import Hooks ConditionalNav ThemeRoot.

Lemma home_headings (siteConfig : SiteConfig) (heroBanner : string)
  (cs : list ReactNode) :
  headings (Home siteConfig heroBanner (grid_section cs)) =
  (Some (PString "h1"), config_title siteConfig) ::
  (Some (PString "h2"), "Choose Your SDK") ::
  flat_map headings cs.
Proof.
  unfold headings, Home, HomepageHeader.
  repeat (rewrite elements_of_type_element; cbn [flat_map]).
  rewrite grid_section_elements by reflexivity.
  cbn [String.eqb Ascii.eqb Bool.eqb app elements_of_type].
  rewrite !app_nil_r. cbn [map app element_prop lookup_prop String.eqb
                           Ascii.eqb Bool.eqb text_content].
  rewrite map_flat_map, JSStringFacts.append_empty_r. reflexivity.
Qed.

(** X12. The heading outline of the home page: one [h1] with the site's
    title, then the [h2] of the grid, then one [h3] per descriptor with its
    title, in the descriptors' order, whatever the site configuration and
    whatever media the descriptors have. *)
Theorem home_page_heading_outline (siteConfig : SiteConfig)
  (heroBanner : string) (descriptors : list SDK) :
  headings (Home siteConfig heroBanner
              (grid_section (PagesIndex.cards descriptors))) =
    (Some (PString "h1"), config_title siteConfig) ::
    (Some (PString "h2"), "Choose Your SDK") ::
    map (fun sdk => (Some (PString "h3"), title sdk)) descriptors /\
  headings (Home siteConfig heroBanner
              (grid_section (PagesIndexVideo.cards descriptors))) =
    (Some (PString "h1"), config_title siteConfig) ::
    (Some (PString "h2"), "Choose Your SDK") ::
    map (fun sdk => (Some (PString "h3"), title sdk)) descriptors.
Proof.
  rewrite !home_headings. unfold PagesIndex.cards, PagesIndexVideo.cards.
  split; do 2 f_equal.
  - rewrite (flat_map_array_map PagesIndex.card _
               (fun sdk => [(Some (PString "h3"), title sdk)])).
    + apply flat_map_singleton.
    + intros sdk i. apply (card_headings sdk i).
  - rewrite (flat_map_array_map PagesIndexVideo.card _
               (fun sdk => [(Some (PString "h3"), title sdk)])).
    + apply flat_map_singleton.
    + intros sdk i. apply (card_headings sdk i).
Qed.

(** X13. [Root] is transparent: what it contributes to the page is what
    its children contribute (the navigation script puts nothing in the
    tree), and the one effect it brings is that of the navigation script
    for the current location. *)
Theorem root_renders_its_children_only
  (Rest : Type) (location : Location) (children : ReactNode) :
  output (fst (Root Rest location children)) = output children /\
  snd (Root Rest location children) =
    [snd (ConditionalNavScript Rest location)].
Proof.
  split; [|reflexivity].
  cbn [Root fst ConditionalNavScript output String.eqb Ascii.eqb Bool.eqb app].
  apply app_nil_r.
Qed.

End PageOutline.
